(** * A book catalogue service: create, list and search

    Shallow embedding of [library.py]: the three HTTP routes [add_book],
    [get_all_books] and [search_books], the request validation they declare,
    the [Book] response model, and the SQL statements they send to the
    [books] table.

    Modelling choices.
    - Python [int] is [Z]; [//] on a positive divisor is [Z.div].
    - Python [str] is [string]; a character is a code point below 256, so
      [str.strip] and [str.lower] are the Python functions on that range.
      SQL [LOWER] is taken to agree with [str.lower] on it.
    - The table is a list of rows in physical order plus the value the
      [SERIAL] sequence hands out next; [created_at] is never read and is
      left out.
    - The one connection [con] is shared by all requests and is never
      rolled back: once a statement has failed on the server, the
      transaction is aborted and every later statement fails.  A text
      parameter that contains NUL is refused by the driver before anything
      is sent.
    - [ORDER BY id] is a sort, [LIMIT n OFFSET k] is [firstn]/[skipn] for
      bounds that fit a [bigint] and an error of the statement otherwise,
      [WHERE] keeps the rows whose condition is TRUE in SQL's three-valued
      logic, [LIKE] has the wildcards [%] and [_] and the escape [\].
    - The upload directory is a list of (path, content) pairs, newest first;
      whether [open(path, "wb")] succeeds is decided by the environment.
    - [uuid.uuid4()] is an input of the request step.
    - A request rejected by the declared parameter validation is a 422; an
      exception raised inside a handler is a 500.  A lost connection and a
      full disk are outside the model. *)

From Stdlib Require Import ZArith List String Ascii Bool Lia Arith.
From Stdlib Require Import Sorting.Sorted Sorting.Permutation.
From Stdlib Require Import Init.Byte.
Import ListNotations.

Local Open Scope string_scope.
Local Open Scope Z_scope.

(** ** Outcomes of a request *)

Inductive error : Type :=
| Unprocessable422   (* RequestValidationError raised by the framework *)
| InternalError500.  (* any exception escaping the handler *)

Inductive result (A : Type) : Type :=
| Ok (a : A)
| Err (e : error).

Arguments Ok {A} a.
Arguments Err {A} e.

Definition bind {A B : Type} (r : result A) (k : A -> result B) : result B :=
  match r with
  | Ok a => k a
  | Err e => Err e
  end.

Notation "x <- r ;; k" := (bind r (fun x => k))
  (at level 61, r at next level, right associativity).
Notation "' p <- r ;; k" := (bind r (fun p => k))
  (at level 61, p pattern, r at next level, right associativity).

Definition guard (b : bool) (e : error) : result unit :=
  if b then Ok tt else Err e.

(** A step that may fail and may change a state of type [S]; the state is
    kept when the step fails. *)
Definition step (S A : Type) : Type := S -> result A * S.

Definition and_then {S A B : Type} (c : step S A) (k : A -> step S B)
  : step S B :=
  fun s =>
    match c s with
    | (Ok a, s') => k a s'
    | (Err e, s') => (Err e, s')
    end.

Definition lift {S A : Type} (r : result A) : step S A := fun s => (r, s).

Notation "x <~ c ;; k" := (and_then c (fun x => k))
  (at level 61, c at next level, right associativity).

(** ** Text *)

Module Text.

(** [str.isspace] on code points below 256: TAB, LF, VT, FF, CR, the four
    separators FS..US, SPACE, NEL and NO-BREAK SPACE. *)
Definition is_space (c : ascii) : bool :=
  let n := nat_of_ascii c in
  ((9 <=? n) && (n <=? 13) || (28 <=? n) && (n <=? 32)
   || (n =? 133) || (n =? 160))%nat.

(** [str.lower] on one code point below 256: A..Z, and the Latin-1 capitals
    U+00C0..U+00DE except the multiplication sign U+00D7, move up by 32.
    On this range the result is one code point again; no statement below
    relies on [str.lower] keeping the length of a text. *)
Definition lower_char (c : ascii) : ascii :=
  let n := nat_of_ascii c in
  if ((65 <=? n) && (n <=? 90)
      || (192 <=? n) && (n <=? 222) && negb (n =? 215))%nat
  then ascii_of_nat (n + 32)
  else c.

Fixpoint lower (s : string) : string :=
  match s with
  | EmptyString => EmptyString
  | String c s' => String (lower_char c) (lower s')
  end.

Fixpoint lstrip (s : string) : string :=
  match s with
  | EmptyString => EmptyString
  | String c s' => if is_space c then lstrip s' else s
  end.

Fixpoint rstrip (s : string) : string :=
  match s with
  | EmptyString => EmptyString
  | String c s' =>
      match rstrip s' with
      | EmptyString => if is_space c then EmptyString else String c EmptyString
      | r => String c r
      end
  end.

(** [s.strip()] *)
Definition strip (s : string) : string := rstrip (lstrip s).

(** Python truthiness of a [str]. *)
Definition truthy (s : string) : bool :=
  match s with
  | EmptyString => false
  | String _ _ => true
  end.

(** [len(s)] as a Python integer. *)
Definition len (s : string) : Z := Z.of_nat (String.length s).

(** [min_length=lo, max_length=hi] of a pydantic/FastAPI string field. *)
Definition length_between (lo hi : Z) (s : string) : bool :=
  (lo <=? len s) && (len s <=? hi).

Fixpoint all_space (s : string) : bool :=
  match s with
  | EmptyString => true
  | String c s' => is_space c && all_space s'
  end.

Definition starts_with_space (s : string) : bool :=
  match s with
  | EmptyString => false
  | String c _ => is_space c
  end.

Fixpoint ends_with_space (s : string) : bool :=
  match s with
  | EmptyString => false
  | String c EmptyString => is_space c
  | String _ s' => ends_with_space s'
  end.

(** The text holds the character NUL. *)
Fixpoint has_nul (s : string) : bool :=
  match s with
  | EmptyString => false
  | String c s' => (c =? zero)%char || has_nul s'
  end.

(** [q] occurs in [s] as a contiguous block of characters. *)
Definition substring_of (q s : string) : Prop :=
  exists a b, s = a ++ q ++ b.

Fixpoint prefix_of (q s : string) : bool :=
  match q, s with
  | EmptyString, _ => true
  | String _ _, EmptyString => false
  | String c q', String d s' => (c =? d)%char && prefix_of q' s'
  end.

(** Decision procedure for [substring_of]. *)
Fixpoint contains (q s : string) : bool :=
  prefix_of q s
  || match s with
     | EmptyString => false
     | String _ s' => contains q s'
     end.

End Text.

(** ** SQL [LIKE] *)

Module Like.

Inductive token : Type :=
| AnySeq                (* %  : any sequence of characters, also empty *)
| AnyOne                (* _  : exactly one character *)
| Lit (c : ascii).      (* an ordinary or escaped character *)

Definition is_meta (c : ascii) : bool :=
  (c =? "%")%char || (c =? "_")%char || (c =? "\")%char.

Definition token_of (c : ascii) : token :=
  if (c =? "%")%char then AnySeq
  else if (c =? "_")%char then AnyOne
  else Lit c.

(** Reading a pattern: a backslash makes the next character literal; a
    pattern that ends in a lone backslash is the engine's "invalid escape
    sequence" error, [None]. *)
Fixpoint parse (p : string) : option (list token) :=
  match p with
  | EmptyString => Some []
  | String c p' =>
      if (c =? "\")%char then
        match p' with
        | EmptyString => None
        | String d p'' => option_map (cons (Lit d)) (parse p'')
        end
      else option_map (cons (token_of c)) (parse p')
  end.

Fixpoint matches (toks : list token) (t : string) : bool :=
  match toks with
  | [] => match t with EmptyString => true | _ => false end
  | Lit c :: toks' =>
      match t with
      | EmptyString => false
      | String d t' => (c =? d)%char && matches toks' t'
      end
  | AnyOne :: toks' =>
      match t with
      | EmptyString => false
      | String _ t' => matches toks' t'
      end
  | AnySeq :: toks' =>
      (fix skip (u : string) : bool :=
         matches toks' u
         || match u with
            | EmptyString => false
            | String _ u' => skip u'
            end) t
  end.

Fixpoint has_meta (s : string) : bool :=
  match s with
  | EmptyString => false
  | String c s' => is_meta c || has_meta s'
  end.

End Like.

(** ** The [Book] and [SearchResponse] models *)

Record Book : Type := mkBook {
  id : Z;
  title : string;
  author : string;
  publisher : option string;
  cover_image_path : option string
}.

Record SearchResponse : Type := mkSearchResponse {
  total : Z;
  page : Z;
  page_size : Z;
  total_pages : Z;
  results : list Book
}.

(** [Field(..., min_length=3, max_length=100)] on a [str | None] field only
    constrains a value that is a string. *)
Definition optional_length_between (lo hi : Z) (v : option string) : bool :=
  match v with
  | None => true
  | Some s => Text.length_between lo hi s
  end.

Definition book_fields_ok (t a : string) (p : option string) : bool :=
  Text.length_between 3 100 t
  && Text.length_between 3 100 a
  && optional_length_between 3 100 p.

(** [Book(id=..., title=..., ...)]: the constructor validates; [None] is
    pydantic's [ValidationError]. *)
Definition make_Book (i : Z) (t a : string) (p c : option string)
  : option Book :=
  if book_fields_ok t a p then Some (mkBook i t a p c) else None.

(** ** The [books] table *)

Record Row : Type := mkRow {
  r_id : Z;
  r_title : string;
  r_author : string;
  r_publisher : option string;      (* TEXT, nullable *)
  r_cover_image_path : option string  (* TEXT, nullable *)
}.

(** The table as the service reaches it through its one connection. *)
Record Database : Type := mkDatabase {
  books : list Row;
  next_id : Z;   (* next value of the SERIAL sequence *)
  failed : bool  (* the transaction of [con] is aborted *)
}.

Module Sql.

(** Three-valued logic: [None] is NULL. *)
Definition or3 (a b : option bool) : option bool :=
  match a, b with
  | Some true, _ | _, Some true => Some true
  | Some false, Some false => Some false
  | _, _ => None
  end.

Definition is_true (v : option bool) : bool :=
  match v with
  | Some true => true
  | _ => false
  end.

(** [LOWER(x)] *)
Definition lower (v : option string) : option string :=
  option_map Text.lower v.

(** [x LIKE pattern] for a pattern already read; NULL on a NULL operand. *)
Definition like (v : option string) (toks : list Like.token) : option bool :=
  option_map (Like.matches toks) v.

(** [SELECT COUNT( * ) FROM books] *)
Definition count (rows : list Row) : Z := Z.of_nat (List.length rows).

(** [ORDER BY id] *)
Fixpoint insert_by_id (r : Row) (l : list Row) : list Row :=
  match l with
  | [] => [r]
  | x :: l' => if r_id r <=? r_id x then r :: l else x :: insert_by_id r l'
  end.

Fixpoint order_by_id (l : list Row) : list Row :=
  match l with
  | [] => []
  | r :: l' => insert_by_id r (order_by_id l')
  end.

(** The largest [bigint]. *)
Definition INT8_MAX : Z := 9223372036854775807.

(** The rows after the first [k], and the first [k] rows; counting in [Z]
    keeps both computable for any bound. *)
Fixpoint skip_rows (k : Z) (l : list Row) : list Row :=
  match l with
  | [] => []
  | _ :: l' => if k <=? 0 then l else skip_rows (k - 1) l'
  end.

Fixpoint take_rows (k : Z) (l : list Row) : list Row :=
  match l with
  | [] => []
  | r :: l' => if k <=? 0 then [] else r :: take_rows (k - 1) l'
  end.

(** [LIMIT limit OFFSET offset]; a bound that is negative, or too large for
    a [bigint], is an error of the statement. *)
Definition limit_offset (limit offset : Z) (l : list Row)
  : option (list Row) :=
  if (limit <? 0) || (offset <? 0)
     || (INT8_MAX <? limit) || (INT8_MAX <? offset)
  then None
  else Some (take_rows limit (skip_rows offset l)).

(** [WHERE LOWER(title) LIKE p OR LOWER(author) LIKE p
          OR LOWER(publisher) LIKE p] *)
Definition search_condition (toks : list Like.token) (r : Row) : bool :=
  is_true
    (or3 (or3 (like (lower (Some (r_title r))) toks)
              (like (lower (Some (r_author r))) toks))
         (like (lower (r_publisher r)) toks)).

(** [INSERT INTO books (title, author, publisher, cover_image_path)
     VALUES (...) RETURNING id], committed. *)
Definition insert_book (t a : string) (p c : option string) (d : Database)
  : Z * Database :=
  let i := next_id d in
  (i, mkDatabase (books d ++ [mkRow i t a p c]) (i + 1) (failed d)).

(** A statement: its result and the table after it, or [None] when the
    server reports an error. *)
Definition statement (A : Type) : Type := Database -> option (A * Database).

(** [SELECT COUNT( * ) FROM books] *)
Definition count_books : statement Z :=
  fun d => Some (count (books d), d).

(** [SELECT ... FROM books ORDER BY id LIMIT limit OFFSET offset] *)
Definition select_books (limit offset : Z) : statement (list Row) :=
  fun d =>
    option_map (fun rows => (rows, d))
      (limit_offset limit offset (order_by_id (books d))).

(** [SELECT COUNT( * ) FROM books WHERE ...] for the pattern [p] *)
Definition count_matching (p : string) : statement Z :=
  fun d =>
    option_map
      (fun toks => (count (filter (search_condition toks) (books d)), d))
      (Like.parse p).

(** [SELECT ... FROM books WHERE ... ORDER BY id LIMIT limit OFFSET offset] *)
Definition select_matching (p : string) (limit offset : Z)
  : statement (list Row) :=
  fun d =>
    match Like.parse p with
    | Some toks =>
        option_map (fun rows => (rows, d))
          (limit_offset limit offset
             (order_by_id (filter (search_condition toks) (books d))))
    | None => None
    end.

(** [INSERT ... RETURNING id] as a statement. *)
Definition insert_returning (t a : string) (p c : option string)
  : statement Z :=
  fun d => Some (insert_book t a p c d).

Definition param_has_nul (v : option string) : bool :=
  match v with
  | Some s => Text.has_nul s
  | None => false
  end.

(** [cur.execute(statement, params)] on the shared connection.  The driver
    refuses a text parameter with NUL before anything is sent; on a
    connection whose transaction is aborted every statement fails; a
    statement that fails on the server aborts the transaction. *)
Definition execute {A : Type} (params : list (option string))
    (st : statement A) : step Database A :=
  fun d =>
    if existsb param_has_nul params then (Err InternalError500, d)
    else if failed d then (Err InternalError500, d)
    else match st d with
         | Some (a, d') => (Ok a, d')
         | None =>
             (Err InternalError500, mkDatabase (books d) (next_id d) true)
         end.

End Sql.

(** ** The upload directory and the service state *)

Definition UPLOAD_DIR : string := "uploads".

Record UploadFile : Type := mkUploadFile {
  filename : option string;
  file : list byte
}.

(** Everything the requests share: the table behind the one connection,
    with the state of its transaction, and the upload directory. *)
Record World : Type := mkWorld {
  database : Database;
  files : list (string * list byte);
  can_open : string -> bool   (* does [open(path, "wb")] succeed *)
}.

Fixpoint ends_with_slash (s : string) : bool :=
  match s with
  | EmptyString => false
  | String c EmptyString => (c =? "/")%char
  | String _ s' => ends_with_slash s'
  end.

(** [os.path.join(a, b)] on POSIX. *)
Definition os_path_join (a b : string) : string :=
  match b with
  | String "/" _ => b
  | _ => if negb (Text.truthy a) || ends_with_slash a
         then a ++ b
         else a ++ "/" ++ b
  end.

(** ** Requests and their declared validation *)

(** The multipart body of [POST /books]; an absent field is [None]. *)
Record CreateForm : Type := mkCreateForm {
  form_title : option string;
  form_author : option string;
  form_publisher : option string;
  form_cover_image : option UploadFile
}.

(** The query string of [GET /books] and [GET /books/search]. *)
Record PageQuery : Type := mkPageQuery {
  q_page : option Z;
  q_page_size : option Z
}.

(** A form field sent with an empty value is read as not sent. *)
Definition form_value (v : option string) : option string :=
  match v with
  | Some EmptyString => None
  | _ => v
  end.

Definition with_default {A : Type} (d : A) (v : option A) : A :=
  match v with
  | Some a => a
  | None => d
  end.

(** [Form(...)] / [Query(...)]: a required parameter. *)
Definition required {A : Type} (v : option A) : result A :=
  match v with
  | Some a => Ok a
  | None => Err Unprocessable422
  end.

(** [page: int = Query(1, ge=1)], [page_size: int = Query(10, ge=1, le=50)] *)
Definition validate_paging (q : PageQuery) : result (Z * Z) :=
  let page := with_default 1 (q_page q) in
  let page_size := with_default 10 (q_page_size q) in
  _ <- guard (1 <=? page) Unprocessable422 ;;
  _ <- guard ((1 <=? page_size) && (page_size <=? 50)) Unprocessable422 ;;
  Ok (page, page_size).

(** ** [POST /books] *)

(** [cover_image and cover_image.filename] *)
Definition cover_supplied (cover_image : option UploadFile)
  : option (string * list byte) :=
  match cover_image with
  | Some up =>
      match filename up with
      | Some name => if Text.truthy name then Some (name, file up) else None
      | None => None
      end
  | None => None
  end.

(** [publisher.strip() if publisher else None] *)
Definition publisher_value (publisher : option string) : option string :=
  match publisher with
  | Some p => if Text.truthy p then Some (Text.strip p) else None
  | None => None
  end.

(** The body of [add_book], run on validated parameters.  [uuid] is
    [str(uuid.uuid4())].  [open] refuses a path with NUL whatever the
    directory allows. *)
Definition add_book_body (uuid : string) (title author : string)
    (publisher : option string) (cover_image : option UploadFile)
    (w : World) : result Book * World :=
  let saved :=
    match cover_supplied cover_image with
    | Some (name, content) =>
        let file_name := uuid ++ "_" ++ name in
        let file_path := os_path_join UPLOAD_DIR file_name in
        if can_open w file_path && negb (Text.has_nul file_path)
        then Ok (Some file_path,
                 mkWorld (database w) ((file_path, content) :: files w)
                         (can_open w))
        else Err InternalError500
    | None => Ok (None, w)
    end in
  match saved with
  | Err e => (Err e, w)
  | Ok (cover_image_path, w1) =>
      let publisher_value := publisher_value publisher in
      match
        Sql.execute
          [Some (Text.strip title); Some (Text.strip author);
           publisher_value; cover_image_path]
          (Sql.insert_returning (Text.strip title) (Text.strip author)
             publisher_value cover_image_path)
          (database w1)
      with
      | (Err e, d) => (Err e, mkWorld d (files w1) (can_open w1))
      | (Ok book_id, d) =>
          let w2 := mkWorld d (files w1) (can_open w1) in
          match make_Book book_id (Text.strip title) (Text.strip author)
                          publisher_value cover_image_path with
          | Some b => (Ok b, w2)
          | None => (Err InternalError500, w2)
          end
      end
  end.

(** [title: str = Form(...)], [author: str = Form(...)],
    [publisher: str | None = Form(None, min_length=3, max_length=100)],
    [cover_image: UploadFile = File(None)] *)
Definition validate_create (f : CreateForm)
  : result (string * string * option string * option UploadFile) :=
  title <- required (form_value (form_title f)) ;;
  author <- required (form_value (form_author f)) ;;
  let publisher := form_value (form_publisher f) in
  _ <- guard (optional_length_between 3 100 publisher) Unprocessable422 ;;
  Ok (title, author, publisher, form_cover_image f).

Definition add_book (uuid : string) (f : CreateForm) (w : World)
  : result Book * World :=
  match validate_create f with
  | Err e => (Err e, w)
  | Ok (title, author, publisher, cover_image) =>
      add_book_body uuid title author publisher cover_image w
  end.

(** ** [GET /books] *)

(** [[Book(id=r[0], ...) for r in rows]] *)
Definition book_of_row (r : Row) : option Book :=
  make_Book (r_id r) (r_title r) (r_author r) (r_publisher r)
            (r_cover_image_path r).

Fixpoint books_of_rows (rows : list Row) : option (list Book) :=
  match rows with
  | [] => Some []
  | r :: rows' =>
      match book_of_row r, books_of_rows rows' with
      | Some b, Some bs => Some (b :: bs)
      | _, _ => None
      end
  end.

Definition raised {A : Type} (v : option A) : result A :=
  match v with
  | Some a => Ok a
  | None => Err InternalError500
  end.

(** [(total + page_size - 1) // page_size] *)
Definition page_count (total page_size : Z) : Z :=
  (total + page_size - 1) / page_size.

Definition get_all_books_body (page page_size : Z)
  : step Database SearchResponse :=
  let offset := (page - 1) * page_size in
  total <~ Sql.execute [] Sql.count_books ;;
  rows <~ Sql.execute [] (Sql.select_books page_size offset) ;;
  books <~ lift (raised (books_of_rows rows)) ;;
  let total_pages := page_count total page_size in
  lift (Ok (mkSearchResponse total page page_size total_pages books)).

Definition get_all_books (q : PageQuery) : step Database SearchResponse :=
  fun d =>
    match validate_paging q with
    | Ok (page, page_size) => get_all_books_body page page_size d
    | Err e => (Err e, d)
    end.

(** ** [GET /books/search] *)

(** [f"%{query.strip().lower()}%"] *)
Definition query_lower (query : string) : string :=
  "%" ++ Text.lower (Text.strip query) ++ "%".

Definition search_books_body (query : string) (page page_size : Z)
  : step Database SearchResponse :=
  let offset := (page - 1) * page_size in
  let query_lower := query_lower query in
  let params := [Some query_lower; Some query_lower; Some query_lower] in
  total <~ Sql.execute params (Sql.count_matching query_lower) ;;
  rows <~ Sql.execute params
            (Sql.select_matching query_lower page_size offset) ;;
  books <~ lift (raised (books_of_rows rows)) ;;
  let total_pages := page_count total page_size in
  lift (Ok (mkSearchResponse total page page_size total_pages books)).

(** [query: str = Query(..., min_length=3, max_length=100)] *)
Definition validate_search (query : option string) (q : PageQuery)
  : result (string * Z * Z) :=
  query <- required query ;;
  _ <- guard (Text.length_between 3 100 query) Unprocessable422 ;;
  '(page, page_size) <- validate_paging q ;;
  Ok (query, page, page_size).

Definition search_books (query : option string) (q : PageQuery)
  : step Database SearchResponse :=
  fun d =>
    match validate_search query q with
    | Ok (query, page, page_size) => search_books_body query page page_size d
    | Err e => (Err e, d)
    end.

(** ** Auxiliary definitions used in the statements *)

(** The columns of a row as a [Book], without the model's field checks. *)
Definition book_view (r : Row) : Book :=
  mkBook (r_id r) (r_title r) (r_author r) (r_publisher r)
         (r_cover_image_path r).

Definition row_fields_ok (r : Row) : bool :=
  book_fields_ok (r_title r) (r_author r) (r_publisher r).

Definition id_le (a b : Row) : Prop := r_id a <= r_id b.

(** The page [page] of [rows] once they are in id order. *)
Definition page_slice (page page_size : Z) (rows : list Row) : list Row :=
  firstn (Z.to_nat page_size)
    (skipn (Z.to_nat ((page - 1) * page_size)) (Sql.order_by_id rows)).

(** The answer both read routes build from the rows they select. *)
Definition page_response (page page_size : Z) (selected : list Row)
  : result SearchResponse :=
  match books_of_rows (page_slice page page_size selected) with
  | Some bs =>
      Ok (mkSearchResponse (Sql.count selected) page page_size
            (page_count (Sql.count selected) page_size) bs)
  | None => Err InternalError500
  end.

(** What a read route does with the rows it selects, for paging parameters
    that passed validation: nothing on an aborted transaction, an aborted
    transaction when the offset does not fit a [bigint], and otherwise the
    answer, the state being left as it was. *)
Definition read_outcome (page page_size : Z) (selected : list Row)
  : step Database SearchResponse :=
  fun d =>
    if failed d then (Err InternalError500, d)
    else if Sql.INT8_MAX <? (page - 1) * page_size
    then (Err InternalError500, mkDatabase (books d) (next_id d) true)
    else (page_response page page_size selected, d).

(** The literal pattern for the characters of [q]. *)
Definition literals (q : string) : list Like.token :=
  map Like.Lit (list_ascii_of_string q).

(** The search criterion in the words of the specification: the lowercased
    query occurs in the lowercased title, author or publisher. *)
Definition spec_search_match (query : string) (r : Row) : bool :=
  Text.contains (Text.lower query) (Text.lower (r_title r))
  || Text.contains (Text.lower query) (Text.lower (r_author r))
  || match r_publisher r with
     | Some p => Text.contains (Text.lower query) (Text.lower p)
     | None => false
     end.

(** The same form with another cover image part. *)
Definition with_cover (f : CreateForm) (c : option UploadFile) : CreateForm :=
  mkCreateForm (form_title f) (form_author f) (form_publisher f) c.

(** The path [add_book] stores for a cover image. *)
Definition cover_path (uuid : string) (cover_image : option UploadFile)
  : option string :=
  match cover_supplied cover_image with
  | Some (name, _) => Some (os_path_join UPLOAD_DIR (uuid ++ "_" ++ name))
  | None => None
  end.

(** The insert, the commit and the construction of the answer, as
    [add_book] performs them once the cover image is dealt with, when the
    insert is carried out: [c] is the stored path and [fs] the content of
    the upload directory. *)
Definition store_book (t a : string) (p c : option string)
    (fs : list (string * list byte)) (w : World) : result Book * World :=
  let d := database w in
  let i := next_id d in
  let t' := Text.strip t in
  let a' := Text.strip a in
  let p' := publisher_value p in
  (raised (make_Book i t' a' p' c),
   mkWorld (mkDatabase (books d ++ [mkRow i t' a' p' c]) (i + 1) (failed d))
           fs (can_open w)).

(** The parameters the driver has to send for the insert. *)
Definition insert_params (t a : string) (p c : option string)
  : list (option string) :=
  [Some (Text.strip t); Some (Text.strip a); publisher_value p; c].

(** The same steps with the two ways the insert is not carried out: a
    parameter holds NUL, or the transaction is aborted.  The table is then
    as it was. *)
Definition commit_book (t a : string) (p c : option string)
    (fs : list (string * list byte)) (w : World) : result Book * World :=
  if existsb Sql.param_has_nul (insert_params t a p c) || failed (database w)
  then (Err InternalError500, mkWorld (database w) fs (can_open w))
  else store_book t a p c fs w.

(** Sample data. *)
Definition empty_world : World :=
  mkWorld (mkDatabase [] 1 false) [] (fun _ => true).

Definition dune_form : CreateForm :=
  mkCreateForm (Some "Dune") (Some "Frank Herbert") (Some "Ace") None.

Definition dune_row : Row :=
  mkRow 1 "Dune" "Frank Herbert" (Some "Ace") None.

Definition dune_db : Database := mkDatabase [dune_row] 2 false.

Definition default_paging : PageQuery := mkPageQuery None None.

(** [n] copies of one book, with ids 1..n. *)
Definition catalogue (n : nat) : Database :=
  mkDatabase
    (map (fun i => mkRow (Z.of_nat i) "Dune" "Frank Herbert" (Some "Ace") None)
         (seq 1 n))
    (Z.of_nat n + 1) false.

Definition dune_book (i : Z) : Book :=
  mkBook i "Dune" "Frank Herbert" (Some "Ace") None.

(** The answer to [GET /books?page=2&page_size=10] over twelve books. *)
Definition second_page_of_twelve : SearchResponse :=
  mkSearchResponse 12 2 10 2 [dune_book 11; dune_book 12].

(** ** Invariants of the service state *)

Definition id_lt (a b : Row) : Prop := r_id a < r_id b.

(** The ids of the table ascend strictly in storage order and lie below the
    next value of the sequence: what a table filled through [add_book] only
    looks like. *)
Definition ids_fresh (d : Database) : Prop :=
  StronglySorted id_lt (books d)
  /\ Forall (fun r => r_id r < next_id d) (books d).

(** Every cover path held by a row names a file of the upload directory. *)
Definition covers_present (w : World) : Prop :=
  forall r p,
    In r (books (database w)) -> r_cover_image_path r = Some p ->
    exists content, In (p, content) (files w).

(** The field constraints of the [Book] model, on a record. *)
Definition book_ok (b : Book) : bool :=
  book_fields_ok (title b) (author b) (publisher b).

Definition book_id_le (a b : Book) : Prop := id a <= id b.

(** The state after start-up when no table exists yet: [CREATE TABLE IF NOT
    EXISTS] makes an empty table whose sequence starts at 1, the
    transaction is committed, and
    [os.makedirs(UPLOAD_DIR, exist_ok=True)] keeps what the directory
    holds. *)
Definition startup (fs : list (string * list byte))
    (opens : string -> bool) : World :=
  mkWorld (mkDatabase [] 1 false) fs opens.

(** A run of create requests, each with the uuid drawn for it. *)
Fixpoint serve (requests : list (string * CreateForm)) (w : World) : World :=
  match requests with
  | [] => w
  | (uuid, f) :: rest => serve rest (snd (add_book uuid f w))
  end.

(** The ids are 1, 2, ..., n in storage order and the sequence is at n + 1. *)
Definition ids_consecutive (d : Database) : Prop :=
  map r_id (books d) = map Z.of_nat (seq 1 (List.length (books d)))
  /\ next_id d = Z.of_nat (List.length (books d)) + 1.

(** * Facts *)

(** ** Text *)

Section TextFacts.

Import Text.

Lemma append_empty_r (s : string) : s ++ "" = s.
Proof. induction s as [|c s IH]; simpl; [reflexivity | now rewrite IH]. Qed.

Lemma append_assoc (a b c : string) : (a ++ b) ++ c = a ++ (b ++ c).
Proof. induction a as [|x a IH]; simpl; [reflexivity | now rewrite IH]. Qed.

Lemma lstrip_split (s : string) :
  exists a, s = a ++ lstrip s /\ all_space a = true.
Proof.
  induction s as [|c s [a [Hs Ha]]]; simpl.
  - exists ""; split; reflexivity.
  - destruct (is_space c) eqn:Hc.
    + exists (String c a); simpl. rewrite Hc, Ha, <- Hs. split; reflexivity.
    + exists ""; split; reflexivity.
Qed.

Lemma lstrip_head (s : string) : starts_with_space (lstrip s) = false.
Proof.
  induction s as [|c s IH]; simpl; [reflexivity|].
  destruct (is_space c) eqn:Hc; [exact IH | simpl; exact Hc].
Qed.

Lemma rstrip_split (s : string) :
  exists b, s = rstrip s ++ b /\ all_space b = true.
Proof.
  induction s as [|c s [b [Hs Hb]]]; simpl.
  - exists ""; split; reflexivity.
  - destruct (rstrip s) as [|d r] eqn:Hr.
    + simpl in Hs. subst b.
      destruct (is_space c) eqn:Hc.
      * exists (String c s); simpl. rewrite Hc, Hb. split; reflexivity.
      * exists s; split; [reflexivity | exact Hb].
    + exists b; simpl. split; [now rewrite Hs at 1 | exact Hb].
Qed.

Lemma rstrip_tail (s : string) : ends_with_space (rstrip s) = false.
Proof.
  induction s as [|c s IH]; simpl; [reflexivity|].
  destruct (rstrip s) as [|d r] eqn:Hr.
  - destruct (is_space c) eqn:Hc; simpl; [reflexivity | exact Hc].
  - exact IH.
Qed.

Lemma rstrip_head (s : string) :
  starts_with_space s = false -> starts_with_space (rstrip s) = false.
Proof.
  destruct s as [|c s]; simpl; [reflexivity|].
  intros Hc. destruct (rstrip s); [rewrite Hc|]; simpl; exact Hc.
Qed.

(** [strip] removes a block of whitespace at each end and leaves a text
    that neither starts nor ends with whitespace. *)
Lemma strip_spec (s : string) :
  exists a b,
    s = a ++ strip s ++ b
    /\ all_space a = true /\ all_space b = true
    /\ starts_with_space (strip s) = false
    /\ ends_with_space (strip s) = false.
Proof.
  destruct (lstrip_split s) as [a [Hs Ha]].
  destruct (rstrip_split (lstrip s)) as [b [Hl Hb]].
  exists a, b. unfold strip. repeat split; auto.
  - now rewrite <- Hl.
  - apply rstrip_head, lstrip_head.
  - apply rstrip_tail.
Qed.

Lemma prefix_of_spec (q s : string) :
  prefix_of q s = true <-> exists b, s = q ++ b.
Proof.
  revert s; induction q as [|c q IH]; intros s; simpl.
  - split; [intros _; now exists s | reflexivity].
  - destruct s as [|d s].
    + split; [discriminate | intros [b Hb]; discriminate].
    + rewrite andb_true_iff, Ascii.eqb_eq, IH. split.
      * intros [-> [b ->]]. now exists b.
      * intros [b Hb]. injection Hb as -> ->. split; [reflexivity | now exists b].
Qed.

Lemma contains_spec (q s : string) :
  contains q s = true <-> substring_of q s.
Proof.
  unfold substring_of. induction s as [|d s IH]; simpl.
  - rewrite orb_false_r, prefix_of_spec. split.
    + intros [b Hb]. now exists "", b.
    + intros [a [b Hab]]. destruct a; simpl in Hab; [now exists b | discriminate].
  - rewrite orb_true_iff, prefix_of_spec, IH. split.
    + intros [[b Hb] | [a [b Hab]]].
      * now exists "", b.
      * exists (String d a), b. simpl. now rewrite Hab.
    + intros [a [b Hab]]. destruct a as [|x a]; simpl in Hab.
      * left. now exists b.
      * right. injection Hab as _ Hab. now exists a, b.
Qed.

End TextFacts.

(** ** [LIKE] patterns *)

Section LikeFacts.

Import Like.

Lemma matches_anyseq (toks : list token) (t : string) :
  matches (AnySeq :: toks) t
  = matches toks t
    || match t with
       | EmptyString => false
       | String _ t' => matches (AnySeq :: toks) t'
       end.
Proof. destruct t; reflexivity. Qed.

Lemma matches_trailing_anyseq (t : string) : matches [AnySeq] t = true.
Proof.
  induction t as [|c t IH]; [reflexivity|].
  rewrite matches_anyseq, IH. apply orb_true_r.
Qed.

Lemma matches_literals_prefix (q t : string) :
  matches (literals q ++ [AnySeq]) t = Text.prefix_of q t.
Proof.
  revert t; induction q as [|c q IH]; intros t.
  - simpl literals. simpl app. rewrite matches_trailing_anyseq.
    destruct t; reflexivity.
  - destruct t as [|d t]; [reflexivity|].
    unfold literals in *. simpl. now rewrite IH.
Qed.

(** A pattern [%q%] whose middle is all literal is a substring test. *)
Lemma matches_wrapped_literals (q t : string) :
  matches (AnySeq :: literals q ++ [AnySeq]) t = Text.contains q t.
Proof.
  induction t as [|d t IH]; rewrite matches_anyseq, matches_literals_prefix.
  - reflexivity.
  - now rewrite IH.
Qed.

Lemma token_of_plain (c : ascii) :
  is_meta c = false -> (c =? "\")%char = false /\ token_of c = Lit c.
Proof.
  unfold is_meta, token_of. intros H.
  apply orb_false_iff in H as [H H3]. apply orb_false_iff in H as [H1 H2].
  now rewrite H1, H2.
Qed.

Lemma parse_plain_app (q rest : string) :
  has_meta q = false ->
  parse (q ++ rest) = option_map (app (literals q)) (parse rest).
Proof.
  induction q as [|c q IH]; simpl; intros H.
  - destruct (parse rest); reflexivity.
  - apply orb_false_iff in H as [Hc Hq].
    destruct (token_of_plain c Hc) as [Hb Ht].
    rewrite Hb, Ht, (IH Hq). destruct (parse rest); reflexivity.
Qed.

Lemma parse_wrapped_plain (q : string) :
  has_meta q = false ->
  parse ("%" ++ q ++ "%") = Some (AnySeq :: literals q ++ [AnySeq]).
Proof.
  intros H. change ("%" ++ q ++ "%") with (String "%" (q ++ "%")).
  cbn [parse]. change ("%" =? "\")%char with false. cbv iota.
  rewrite (parse_plain_app q "%" H). reflexivity.
Qed.

Lemma parse_percent_end (s : string) :
  parse (s ++ "%") <> None /\ forall c, parse (String c s ++ "%") <> None.
Proof.
  induction s as [|d s [IH1 IH2]].
  - split; [discriminate|]. intros c. simpl.
    destruct (c =? "\")%char; discriminate.
  - split; [apply IH2|]. intros c.
    change (String c (String d s) ++ "%") with (String c (String d (s ++ "%"))).
    cbn [parse]. destruct (c =? "\")%char.
    + destruct (parse (s ++ "%")); [discriminate | contradiction].
    + specialize (IH2 d). simpl append in IH2. cbn [parse] in IH2.
      destruct (d =? "\")%char.
      * destruct (s ++ "%") as [|e u]; [contradiction|].
        destruct (parse u); [discriminate | contradiction].
      * destruct (parse (s ++ "%")); [discriminate | contradiction].
Qed.

(** The pattern built by [search_books] is always well formed. *)
Lemma parse_query_lower (query : string) :
  exists toks, parse (query_lower query) = Some toks.
Proof.
  unfold query_lower.
  change ("%" ++ Text.lower (Text.strip query) ++ "%")
    with (String "%" (Text.lower (Text.strip query) ++ "%")).
  cbn [parse]. change ("%" =? "\")%char with false. cbv iota.
  destruct (parse_percent_end (Text.lower (Text.strip query))) as [H _].
  destruct (parse (Text.lower (Text.strip query) ++ "%")) as [toks|];
    [|contradiction].
  eexists. reflexivity.
Qed.

End LikeFacts.

(** ** Ordering and paging *)

Section PagingFacts.

Lemma insert_by_id_perm (r : Row) (l : list Row) :
  Permutation (Sql.insert_by_id r l) (r :: l).
Proof.
  induction l as [|x l IH]; simpl; [apply Permutation_refl|].
  destruct (r_id r <=? r_id x); [apply Permutation_refl|].
  eapply perm_trans; [apply perm_skip, IH | apply perm_swap].
Qed.

Lemma order_by_id_perm (l : list Row) : Permutation (Sql.order_by_id l) l.
Proof.
  induction l as [|r l IH]; simpl; [constructor|].
  eapply perm_trans; [apply insert_by_id_perm | now apply perm_skip].
Qed.

Lemma insert_by_id_sorted (r : Row) (l : list Row) :
  StronglySorted id_le l -> StronglySorted id_le (Sql.insert_by_id r l).
Proof.
  induction 1 as [|x l Hl IH Hx]; simpl.
  - repeat constructor.
  - destruct (r_id r <=? r_id x) eqn:E.
    + apply Z.leb_le in E. constructor; [now constructor|].
      constructor; [exact E|].
      eapply Forall_impl; [|exact Hx]. unfold id_le; intros; lia.
    + apply Z.leb_gt in E. constructor; [exact IH|].
      eapply Permutation_Forall;
        [apply Permutation_sym, insert_by_id_perm|].
      constructor; [unfold id_le; lia | exact Hx].
Qed.

Lemma order_by_id_sorted (l : list Row) :
  StronglySorted id_le (Sql.order_by_id l).
Proof.
  induction l as [|r l IH]; simpl; [constructor|].
  now apply insert_by_id_sorted.
Qed.

Lemma order_by_id_length (l : list Row) :
  List.length (Sql.order_by_id l) = List.length l.
Proof. apply Permutation_length, order_by_id_perm. Qed.

Lemma book_of_row_view (r : Row) :
  book_of_row r = if row_fields_ok r then Some (book_view r) else None.
Proof. reflexivity. Qed.

Lemma books_of_rows_view (rows : list Row) :
  books_of_rows rows
  = if forallb row_fields_ok rows then Some (map book_view rows) else None.
Proof.
  induction rows as [|r rows IH]; simpl; [reflexivity|].
  rewrite book_of_row_view, IH.
  destruct (row_fields_ok r), (forallb row_fields_ok rows); reflexivity.
Qed.

Lemma book_view_inj (r r' : Row) : book_view r = book_view r' -> r = r'.
Proof.
  destruct r, r'; unfold book_view; simpl. intros H; injection H; congruence.
Qed.

Lemma page_slice_length (page page_size : Z) (rows : list Row) :
  0 <= page_size ->
  Z.of_nat (List.length (page_slice page page_size rows)) <= page_size.
Proof.
  intros H. unfold page_slice.
  pose proof (firstn_le_length (Z.to_nat page_size)
    (skipn (Z.to_nat ((page - 1) * page_size)) (Sql.order_by_id rows))).
  lia.
Qed.

Lemma page_slice_beyond (page page_size : Z) (rows : list Row) :
  0 <= (page - 1) * page_size ->
  Sql.count rows <= (page - 1) * page_size ->
  page_slice page page_size rows = [].
Proof.
  unfold page_slice, Sql.count. intros H0 H.
  rewrite skipn_all2; [apply firstn_nil|].
  rewrite order_by_id_length. lia.
Qed.

Lemma page_slice_incl (page page_size : Z) (rows : list Row) (r : Row) :
  In r (page_slice page page_size rows) -> In r rows.
Proof.
  unfold page_slice. intros H.
  apply (Permutation_in _ (order_by_id_perm rows)).
  set (k := Z.to_nat ((page - 1) * page_size)) in *.
  set (l := Sql.order_by_id rows) in *.
  rewrite <- (firstn_skipn k l). apply in_or_app; right.
  rewrite <- (firstn_skipn (Z.to_nat page_size) (skipn k l)).
  apply in_or_app; now left.
Qed.

End PagingFacts.

(** ** The read routes, in closed form *)

Section ReadRoutes.

Lemma validate_paging_inv (q : PageQuery) (page page_size : Z) :
  validate_paging q = Ok (page, page_size) <->
  page = with_default 1 (q_page q)
  /\ page_size = with_default 10 (q_page_size q)
  /\ 1 <= page /\ 1 <= page_size <= 50.
Proof.
  unfold validate_paging, guard, bind.
  destruct (1 <=? with_default 1 (q_page q)) eqn:E1;
  destruct (1 <=? with_default 10 (q_page_size q)) eqn:E2;
  destruct (with_default 10 (q_page_size q) <=? 50) eqn:E3; simpl;
  rewrite ?Z.leb_le, ?Z.leb_gt in *;
  (split; [intros H; try discriminate; injection H as <- <-; lia
          | intros [-> [-> H]]; try lia; reflexivity]).
Qed.

Lemma validate_paging_error (q : PageQuery) (e : error) :
  validate_paging q = Err e -> e = Unprocessable422.
Proof.
  unfold validate_paging, guard, bind.
  destruct (1 <=? _); [|congruence].
  destruct (_ && _); congruence.
Qed.

Lemma skip_rows_skipn (k : Z) (l : list Row) :
  Sql.skip_rows k l = skipn (Z.to_nat k) l.
Proof.
  revert k; induction l as [|r l IH]; intros k; simpl.
  - now rewrite skipn_nil.
  - destruct (k <=? 0) eqn:E.
    + apply Z.leb_le in E. now replace (Z.to_nat k) with 0%nat by lia.
    + apply Z.leb_gt in E.
      replace (Z.to_nat k) with (S (Z.to_nat (k - 1))) by lia.
      simpl. apply IH.
Qed.

Lemma take_rows_firstn (k : Z) (l : list Row) :
  Sql.take_rows k l = firstn (Z.to_nat k) l.
Proof.
  revert k; induction l as [|r l IH]; intros k; simpl.
  - now rewrite firstn_nil.
  - destruct (k <=? 0) eqn:E.
    + apply Z.leb_le in E. now replace (Z.to_nat k) with 0%nat by lia.
    + apply Z.leb_gt in E.
      replace (Z.to_nat k) with (S (Z.to_nat (k - 1))) by lia.
      simpl. now rewrite IH.
Qed.

Lemma limit_offset_valid (page page_size : Z) (l : list Row) :
  1 <= page -> 0 <= page_size <= 50 ->
  Sql.limit_offset page_size ((page - 1) * page_size) l
  = if Sql.INT8_MAX <? (page - 1) * page_size then None
    else Some (firstn (Z.to_nat page_size)
                 (skipn (Z.to_nat ((page - 1) * page_size)) l)).
Proof.
  intros Hp Hs. unfold Sql.limit_offset.
  replace (page_size <? 0) with false by (symmetry; apply Z.ltb_ge; lia).
  replace ((page - 1) * page_size <? 0) with false
    by (symmetry; apply Z.ltb_ge; nia).
  replace (Sql.INT8_MAX <? page_size) with false
    by (symmetry; apply Z.ltb_ge; unfold Sql.INT8_MAX; lia).
  now rewrite take_rows_firstn, skip_rows_skipn.
Qed.

Lemma get_all_books_body_eq (page page_size : Z) (d : Database) :
  1 <= page -> 0 <= page_size <= 50 ->
  get_all_books_body page page_size d
  = read_outcome page page_size (books d) d.
Proof.
  intros Hp Hs.
  unfold get_all_books_body, read_outcome, and_then, lift, Sql.execute,
    Sql.count_books, Sql.select_books, page_response, page_slice.
  cbn [existsb]. destruct (failed d) eqn:Hf; [reflexivity|].
  cbv beta iota. rewrite Hf, limit_offset_valid by assumption.
  destruct (Sql.INT8_MAX <? (page - 1) * page_size); [reflexivity|].
  cbn [option_map]. destruct (books_of_rows _); reflexivity.
Qed.

Lemma same_param_thrice (p : string) :
  existsb Sql.param_has_nul [Some p; Some p; Some p] = Text.has_nul p.
Proof. simpl. destruct (Text.has_nul p); reflexivity. Qed.

Lemma search_books_body_eq (query : string) (page page_size : Z)
    (d : Database) (toks : list Like.token) :
  1 <= page -> 0 <= page_size <= 50 ->
  Like.parse (query_lower query) = Some toks ->
  search_books_body query page page_size d
  = if Text.has_nul (query_lower query) then (Err InternalError500, d)
    else read_outcome page page_size
           (filter (Sql.search_condition toks) (books d)) d.
Proof.
  intros Hp Hs Ht.
  unfold search_books_body, read_outcome, and_then, lift, Sql.execute,
    Sql.count_matching, Sql.select_matching, page_response, page_slice.
  rewrite same_param_thrice, Ht.
  destruct (Text.has_nul (query_lower query)); [reflexivity|].
  destruct (failed d) eqn:Hf; [reflexivity|].
  cbn [option_map]. cbv beta iota. rewrite Hf, limit_offset_valid by assumption.
  destruct (Sql.INT8_MAX <? (page - 1) * page_size); [reflexivity|].
  cbn [option_map]. destruct (books_of_rows _); reflexivity.
Qed.

Lemma get_all_books_eq (q : PageQuery) (d : Database) (page page_size : Z) :
  validate_paging q = Ok (page, page_size) ->
  get_all_books q d = read_outcome page page_size (books d) d.
Proof.
  intros H. unfold get_all_books. rewrite H.
  apply validate_paging_inv in H. apply get_all_books_body_eq; lia.
Qed.

Lemma validate_search_inv (query : option string) (q : PageQuery)
    (s : string) (page page_size : Z) :
  validate_search query q = Ok (s, page, page_size) <->
  query = Some s /\ Text.length_between 3 100 s = true
  /\ validate_paging q = Ok (page, page_size).
Proof.
  unfold validate_search, required, guard, bind.
  destruct query as [s'|]; [|split; [discriminate | intros [H _]; discriminate]].
  destruct (Text.length_between 3 100 s') eqn:E.
  - destruct (validate_paging q) as [[p ps]|e].
    + split; [intros H; injection H as -> -> ->; auto
             | intros [H [_ H']]; injection H as ->; injection H' as -> ->;
               reflexivity].
    + split; [discriminate | intros [_ [_ H]]; discriminate].
  - split; [discriminate | intros [H [H' _]]; injection H as ->; congruence].
Qed.

Lemma search_books_eq (query : option string) (q : PageQuery) (d : Database)
    (s : string) (page page_size : Z) :
  validate_search query q = Ok (s, page, page_size) ->
  exists toks,
    Like.parse (query_lower s) = Some toks
    /\ search_books query q d
       = if Text.has_nul (query_lower s) then (Err InternalError500, d)
         else read_outcome page page_size
                (filter (Sql.search_condition toks) (books d)) d.
Proof.
  intros H. destruct (parse_query_lower s) as [toks Ht].
  exists toks. split; [exact Ht|].
  unfold search_books. rewrite H.
  apply validate_search_inv in H as [_ [_ H]].
  apply validate_paging_inv in H.
  apply search_books_body_eq; [lia | lia | exact Ht].
Qed.

Lemma read_outcome_ok (page page_size : Z) (rows : list Row) (d : Database)
    (resp : SearchResponse) :
  fst (read_outcome page page_size rows d) = Ok resp ->
  failed d = false /\ (page - 1) * page_size <= Sql.INT8_MAX
  /\ page_response page page_size rows = Ok resp.
Proof.
  unfold read_outcome. destruct (failed d); [discriminate|].
  destruct (Sql.INT8_MAX <? (page - 1) * page_size) eqn:E; [discriminate|].
  apply Z.ltb_ge in E. simpl. auto.
Qed.

Lemma read_outcome_usable (page page_size : Z) (rows : list Row)
    (d : Database) :
  failed d = false -> (page - 1) * page_size <= Sql.INT8_MAX ->
  read_outcome page page_size rows d
  = (page_response page page_size rows, d).
Proof.
  intros Hf Ho. unfold read_outcome. rewrite Hf.
  replace (Sql.INT8_MAX <? (page - 1) * page_size) with false
    by (symmetry; apply Z.ltb_ge; lia).
  reflexivity.
Qed.

Lemma page_response_inv (page page_size : Z) (rows : list Row)
    (resp : SearchResponse) :
  page_response page page_size rows = Ok resp ->
  forallb row_fields_ok (page_slice page page_size rows) = true
  /\ resp = mkSearchResponse (Sql.count rows) page page_size
              (page_count (Sql.count rows) page_size)
              (map book_view (page_slice page page_size rows)).
Proof.
  unfold page_response. rewrite books_of_rows_view.
  destruct (forallb _ _); [|discriminate].
  intros H; injection H as <-. split; reflexivity.
Qed.

Lemma page_response_valid (page page_size : Z) (rows : list Row) :
  forallb row_fields_ok (page_slice page page_size rows) = true ->
  page_response page page_size rows
  = Ok (mkSearchResponse (Sql.count rows) page page_size
          (page_count (Sql.count rows) page_size)
          (map book_view (page_slice page page_size rows))).
Proof.
  intros H. unfold page_response. now rewrite books_of_rows_view, H.
Qed.

(** A search that is answered was accepted, and its answer is built from
    the rows that satisfy the search condition. *)
Lemma search_books_ok (query : option string) (q : PageQuery) (d : Database)
    (resp : SearchResponse) :
  fst (search_books query q d) = Ok resp ->
  exists s page page_size toks,
    validate_search query q = Ok (s, page, page_size)
    /\ Like.parse (query_lower s) = Some toks
    /\ page_response page page_size
         (filter (Sql.search_condition toks) (books d)) = Ok resp.
Proof.
  intros H.
  destruct (validate_search query q) as [[[s page] ps]|e] eqn:E;
    [|unfold search_books in H; rewrite E in H; discriminate].
  destruct (search_books_eq query q d s page ps E) as [toks [Ht Hs]].
  rewrite Hs in H.
  destruct (Text.has_nul (query_lower s)); [discriminate|].
  apply read_outcome_ok in H as (_ & _ & H).
  now exists s, page, ps, toks.
Qed.

Lemma get_all_books_ok (q : PageQuery) (d : Database)
    (resp : SearchResponse) :
  fst (get_all_books q d) = Ok resp ->
  exists page page_size,
    validate_paging q = Ok (page, page_size)
    /\ page_response page page_size (books d) = Ok resp.
Proof.
  intros H.
  destruct (validate_paging q) as [[page ps]|e] eqn:E;
    [|unfold get_all_books in H; rewrite E in H; discriminate].
  rewrite (get_all_books_eq q d page ps E) in H.
  apply read_outcome_ok in H as (_ & _ & H).
  now exists page, ps.
Qed.

(** Either read route answers with [page_response] on the rows it selects,
    for the paging parameters it validated. *)
Lemma read_route_inv (query : option string) (q : PageQuery) (d : Database)
    (resp : SearchResponse) :
  fst (get_all_books q d) = Ok resp
  \/ fst (search_books query q d) = Ok resp ->
  exists page page_size rows,
    validate_paging q = Ok (page, page_size)
    /\ incl rows (books d)
    /\ page_response page page_size rows = Ok resp.
Proof.
  intros [H | H].
  - destruct (get_all_books_ok q d resp H) as (page & ps & Hv & Hr).
    exists page, ps, (books d). auto using incl_refl.
  - destruct (search_books_ok query q d resp H)
      as (s & page & ps & toks & Hv & _ & Hr).
    apply validate_search_inv in Hv as (_ & _ & Hv).
    exists page, ps, (filter (Sql.search_condition toks) (books d)).
    split; [exact Hv|]. split; [apply incl_filter | exact Hr].
Qed.

Lemma page_count_ceiling (total page_size : Z) :
  0 <= total -> 1 <= page_size ->
  page_size * (page_count total page_size - 1) < total
  /\ total <= page_size * page_count total page_size.
Proof.
  intros Ht Hs. unfold page_count.
  pose proof (Z.div_mod (total + page_size - 1) page_size ltac:(lia)) as Hd.
  pose proof (Z.mod_pos_bound (total + page_size - 1) page_size ltac:(lia)).
  nia.
Qed.

End ReadRoutes.

(** * The claims *)

(** ** Pagination *)

Lemma selected_none (page page_size : Z) (rows : list Row) :
  Sql.count rows = 0 -> page_slice page page_size rows = [].
Proof.
  unfold Sql.count. intros H. destruct rows; [|simpl in H; lia].
  unfold page_slice. simpl. rewrite skipn_nil. apply firstn_nil.
Qed.

(** C3. In every answer of the list route and of the search route,
    [total_pages] is [(total + page_size - 1) // page_size], which is the
    ceiling of [total / page_size]: the only integer [n] with
    [page_size * (n - 1) < total <= page_size * n].  When [total] is 0,
    [total_pages] is 0 and [results] is empty. *)
Theorem total_pages_is_ceiling (query : option string) (q : PageQuery)
    (d : Database) (resp : SearchResponse) :
  fst (get_all_books q d) = Ok resp \/ fst (search_books query q d) = Ok resp ->
  1 <= page_size resp /\ 0 <= total resp
  /\ total_pages resp = (total resp + page_size resp - 1) / page_size resp
  /\ page_size resp * (total_pages resp - 1) < total resp
  /\ total resp <= page_size resp * total_pages resp
  /\ (total resp = 0 -> total_pages resp = 0 /\ results resp = []).
Proof.
  intros H.
  destruct (read_route_inv query q d resp H) as (pg & ps & rows & Hv & _ & Hr).
  apply validate_paging_inv in Hv as (_ & _ & _ & Hps).
  apply page_response_inv in Hr as [_ ->]. simpl.
  assert (Hc : 0 <= Sql.count rows) by (unfold Sql.count; lia).
  destruct (page_count_ceiling (Sql.count rows) ps Hc ltac:(lia)) as [H1 H2].
  do 5 (split; [lia || reflexivity|]).
  intros H0. rewrite (selected_none pg ps rows H0).
  split; [nia | reflexivity].
Qed.

Lemma total_pages_is_ceiling_witness :
  (fst (get_all_books (mkPageQuery (Some 2) (Some 10)) (catalogue 12))
   = Ok second_page_of_twelve
   \/ fst (search_books None (mkPageQuery (Some 2) (Some 10)) (catalogue 12))
      = Ok second_page_of_twelve)
  /\ total_pages second_page_of_twelve = (12 + 10 - 1) / 10.
Proof.
  split; [left; reflexivity|].
  apply (total_pages_is_ceiling None (mkPageQuery (Some 2) (Some 10))
           (catalogue 12) second_page_of_twelve).
  left; reflexivity.
Defined.

(** The claim C7 read literally fails: no upper bound is declared on
    [page], and for page 922337203685477582 with [page_size] 10 the offset
    does not fit a [bigint]: the statement fails, the request is answered
    500 although the page is merely past the end of the data, and the
    transaction of the shared connection stays aborted, so that page 2 of
    the same table is answered 500 afterwards. *)
Lemma list_page_past_bigint_counterexample :
  let far := mkPageQuery (Some 922337203685477582) (Some 10) in
  Sql.count (books dune_db) <= (922337203685477582 - 1) * 10
  /\ get_all_books far dune_db
     = (Err InternalError500, mkDatabase [dune_row] 2 true)
  /\ fst (get_all_books (mkPageQuery (Some 2) (Some 10))
            (snd (get_all_books far dune_db)))
     = Err InternalError500.
Proof. cbv zeta. split; [discriminate|]. split; reflexivity. Qed.

(** C7, amended. For a list request with [page >= 1] and
    [1 <= page_size <= 50] whose offset [(page - 1) * page_size] fits a
    [bigint], served on a connection whose transaction is not aborted, the
    rows come from the stored books put in ascending id order, start at that
    offset and are at most [page_size]; the answer carries them whenever
    each of them satisfies the [Book] model, a page past the end of the data
    is answered with an empty list, not an error, and the state is left as
    it was. *)
Theorem list_page_is_ordered_slice (page page_size : Z) (d : Database) :
  1 <= page -> 1 <= page_size <= 50 ->
  failed d = false -> (page - 1) * page_size <= Sql.INT8_MAX ->
  exists sorted : list Row,
    Permutation sorted (books d)
    /\ StronglySorted id_le sorted
    /\ let offset := (page - 1) * page_size in
       let slice :=
         firstn (Z.to_nat page_size) (skipn (Z.to_nat offset) sorted) in
       let answer :=
         mkSearchResponse (Sql.count (books d)) page page_size
           (page_count (Sql.count (books d)) page_size)
           (map book_view slice) in
       Z.of_nat (List.length slice) <= page_size
       /\ get_all_books (mkPageQuery (Some page) (Some page_size)) d
          = (if forallb row_fields_ok slice
             then Ok answer else Err InternalError500, d)
       /\ (Sql.count (books d) <= offset ->
           slice = []
           /\ get_all_books (mkPageQuery (Some page) (Some page_size)) d
              = (Ok answer, d)).
Proof.
  intros Hp Hs Hf Ho. exists (Sql.order_by_id (books d)).
  split; [apply order_by_id_perm|]. split; [apply order_by_id_sorted|].
  cbv zeta. fold (page_slice page page_size (books d)).
  assert (Hv : validate_paging (mkPageQuery (Some page) (Some page_size))
               = Ok (page, page_size))
    by (apply validate_paging_inv; simpl; repeat split; lia).
  rewrite (get_all_books_eq _ d page page_size Hv).
  rewrite (read_outcome_usable _ _ _ d Hf Ho).
  unfold page_response. rewrite books_of_rows_view.
  split; [apply page_slice_length; lia|].
  split; [destruct (forallb _ _); reflexivity|].
  intros Hb. rewrite page_slice_beyond by nia. split; reflexivity.
Qed.

Lemma list_page_is_ordered_slice_witness :
  (1 <= 2 /\ 1 <= 10 <= 50 /\ failed (catalogue 12) = false
   /\ (2 - 1) * 10 <= Sql.INT8_MAX)
  /\ exists sorted : list Row,
       Permutation sorted (books (catalogue 12))
       /\ StronglySorted id_le sorted
       /\ get_all_books (mkPageQuery (Some 2) (Some 10)) (catalogue 12)
          = (if forallb row_fields_ok (firstn 10 (skipn 10 sorted))
             then Ok (mkSearchResponse 12 2 10 2
                        (map book_view (firstn 10 (skipn 10 sorted))))
             else Err InternalError500, catalogue 12).
Proof.
  split; [split; [lia | split; [lia | split; [reflexivity | discriminate]]]|].
  destruct (list_page_is_ordered_slice 2 10 (catalogue 12)
              ltac:(lia) ltac:(lia) eq_refl ltac:(discriminate))
    as (sorted & Hp & Hs & _ & H & _).
  exists sorted. split; [exact Hp|]. split; [exact Hs|]. exact H.
Defined.

(** C9. An answer of the list route or of the search route never carries
    more books than the [page_size] that was asked for. *)
Theorem results_within_page_size (query : option string) (q : PageQuery)
    (d : Database) (resp : SearchResponse) :
  fst (get_all_books q d) = Ok resp \/ fst (search_books query q d) = Ok resp ->
  page_size resp = with_default 10 (q_page_size q)
  /\ Z.of_nat (List.length (results resp)) <= page_size resp.
Proof.
  intros H.
  destruct (read_route_inv query q d resp H) as (pg & ps & rows & Hv & _ & Hr).
  apply validate_paging_inv in Hv as (_ & Hps & _ & Hb).
  apply page_response_inv in Hr as [_ ->]. simpl.
  split; [exact Hps|]. rewrite length_map. apply page_slice_length. lia.
Qed.

Lemma results_within_page_size_witness :
  (fst (get_all_books default_paging dune_db)
   = Ok (mkSearchResponse 1 1 10 1 [dune_book 1])
   \/ fst (search_books (Some "dun") default_paging dune_db)
      = Ok (mkSearchResponse 1 1 10 1 [dune_book 1]))
  /\ Z.of_nat (List.length [dune_book 1]) <= 10.
Proof.
  split; [right; reflexivity|].
  apply (results_within_page_size (Some "dun") default_paging dune_db
           (mkSearchResponse 1 1 10 1 [dune_book 1])).
  right; reflexivity.
Defined.

(** ** Search *)

Lemma search_condition_null_publisher (toks : list Like.token) (r : Row) :
  r_publisher r = None ->
  Sql.search_condition toks r
  = Like.matches toks (Text.lower (r_title r))
    || Like.matches toks (Text.lower (r_author r)).
Proof.
  intros H. unfold Sql.search_condition. rewrite H. simpl.
  destruct (Like.matches toks (Text.lower (r_title r))),
           (Like.matches toks (Text.lower (r_author r))); reflexivity.
Qed.

Lemma search_condition_plain (s : string) (r : Row) :
  Sql.search_condition (Like.AnySeq :: literals (Text.lower s) ++ [Like.AnySeq]) r
  = spec_search_match s r.
Proof.
  unfold Sql.search_condition, spec_search_match.
  destruct (r_publisher r) as [p|];
    cbv beta iota delta [Sql.like Sql.lower option_map];
    rewrite !matches_wrapped_literals;
    repeat match goal with |- context [Text.contains ?a ?b] =>
      destruct (Text.contains a b) end; reflexivity.
Qed.

Lemma search_books_accepted (s : string) (q : PageQuery) (d : Database)
    (resp : SearchResponse) :
  fst (search_books (Some s) q d) = Ok resp ->
  exists page page_size toks,
    validate_search (Some s) q = Ok (s, page, page_size)
    /\ Like.parse (query_lower s) = Some toks
    /\ page_response page page_size
         (filter (Sql.search_condition toks) (books d)) = Ok resp.
Proof.
  intros H.
  destruct (search_books_ok (Some s) q d resp H)
    as (s' & page & ps & toks & Hv & Ht & Hr).
  pose proof Hv as Hv'. apply validate_search_inv in Hv' as [Hs _].
  injection Hs as <-. now exists page, ps, toks.
Qed.

(** The claim C4 read literally fails: the underscore of the query [d_n] is
    a wildcard, so the book "Dune" is counted and returned although [d_n]
    occurs in none of its lowercased fields. *)
Lemma search_underscore_counterexample :
  fst (search_books (Some "d_n") default_paging dune_db)
  = Ok (mkSearchResponse 1 1 10 1 [dune_book 1])
  /\ ~ Text.substring_of (Text.lower "d_n") (Text.lower "Dune")
  /\ ~ Text.substring_of (Text.lower "d_n") (Text.lower "Frank Herbert")
  /\ ~ Text.substring_of (Text.lower "d_n") (Text.lower "Ace").
Proof.
  split; [reflexivity|].
  repeat split; intros H; apply contains_spec in H; discriminate H.
Qed.

(** C4, amended. In the answer to a search whose trimmed, lowercased
    query has none of the [LIKE] metacharacters [%], [_] and [\], the books
    counted in [total] and paged into [results] are exactly the stored books
    in which that trimmed, lowercased query occurs as a substring of the
    lowercased title, author or (non-null) publisher; one field is
    enough. *)
Theorem search_plain_query_is_substring (query : string) (q : PageQuery)
    (d : Database) (resp : SearchResponse) :
  fst (search_books (Some query) q d) = Ok resp ->
  Like.has_meta (Text.lower (Text.strip query)) = false ->
  let needle := Text.lower (Text.strip query) in
  let selected := filter (spec_search_match (Text.strip query)) (books d) in
  (forall r : Row,
      In r selected <->
      In r (books d)
      /\ (Text.substring_of needle (Text.lower (r_title r))
          \/ Text.substring_of needle (Text.lower (r_author r))
          \/ exists p, r_publisher r = Some p
                       /\ Text.substring_of needle (Text.lower p)))
  /\ total resp = Sql.count selected
  /\ results resp
     = map book_view (page_slice (page resp) (page_size resp) selected).
Proof.
  intros H Hm. cbv zeta. split.
  - intros r. rewrite filter_In. unfold spec_search_match.
    rewrite !orb_true_iff, !contains_spec.
    destruct (r_publisher r) as [p|].
    + rewrite contains_spec. split.
      * intros [Hin [[H1 | H1] | H1]]; split; auto.
        right; right. now exists p.
      * intros [Hin [H1 | [H1 | [p' [Hp H1]]]]]; split; auto.
        injection Hp as <-. now right.
    + split.
      * intros [Hin [[H1 | H1] | H1]]; split; auto. discriminate.
      * intros [Hin [H1 | [H1 | [p' [Hp H1]]]]]; split; auto. discriminate.
  - destruct (search_books_accepted query q d resp H)
      as (pg & ps & toks & _ & Ht & Hr).
    unfold query_lower in Ht.
    rewrite (parse_wrapped_plain _ Hm) in Ht. injection Ht as <-.
    rewrite (filter_ext _ _ (search_condition_plain (Text.strip query))) in Hr.
    apply page_response_inv in Hr as [_ ->]. split; reflexivity.
Qed.

Lemma search_plain_query_is_substring_witness :
  (fst (search_books (Some " DUN ") default_paging dune_db)
   = Ok (mkSearchResponse 1 1 10 1 [dune_book 1])
   /\ Like.has_meta (Text.lower (Text.strip " DUN ")) = false)
  /\ total (mkSearchResponse 1 1 10 1 [dune_book 1])
     = Sql.count (filter (spec_search_match (Text.strip " DUN "))
                    (books dune_db)).
Proof.
  split; [split; reflexivity|].
  destruct (search_plain_query_is_substring " DUN " default_paging dune_db
              (mkSearchResponse 1 1 10 1 [dune_book 1]) eq_refl eq_refl)
    as (_ & H & _).
  exact H.
Defined.

(** The claim C5 read literally fails: the query ["a  "] is one character
    long once trimmed, and the search is carried out all the same. *)
Lemma search_short_trimmed_query_counterexample :
  Text.len (Text.strip "a  ") = 1
  /\ fst (search_books (Some "a  ") default_paging dune_db)
     = Ok (mkSearchResponse 1 1 10 1 [dune_book 1]).
Proof. split; reflexivity. Qed.

(** C5, amended. A search without a query, or with a query whose length
    as sent (before trimming) is outside 3..100, is rejected with a 422 and
    nothing else is done.  A query of 3..100 characters as sent is never the
    reason for a 422, whatever is left of it after trimming, and when such a
    search is answered the rows were selected with the pattern made of the
    trimmed, lowercased query between two [%]. *)
Theorem search_query_checked_untrimmed (query : option string)
    (q : PageQuery) (d : Database) :
  match query with
  | None => search_books query q d = (Err Unprocessable422, d)
  | Some s =>
      if (3 <=? Text.len s) && (Text.len s <=? 100)
      then (fst (search_books query q d) = Err Unprocessable422 <->
            validate_paging q = Err Unprocessable422)
           /\ forall resp,
               fst (search_books query q d) = Ok resp ->
               exists toks,
                 Like.parse ("%" ++ Text.lower (Text.strip s) ++ "%")
                 = Some toks
                 /\ page_response (page resp) (page_size resp)
                      (filter (Sql.search_condition toks) (books d))
                    = Ok resp
      else search_books query q d = (Err Unprocessable422, d)
  end.
Proof.
  destruct query as [s|]; [|reflexivity].
  destruct ((3 <=? Text.len s) && (Text.len s <=? 100)) eqn:E.
  - split.
    + destruct (validate_paging q) as [[pg ps]|e] eqn:Ep.
      * destruct (search_books_eq (Some s) q d s pg ps) as [toks [_ ->]];
          [apply validate_search_inv; auto|].
        split; [|discriminate]. intros H. exfalso. revert H.
        destruct (Text.has_nul (query_lower s)); [discriminate|].
        unfold read_outcome, page_response.
        destruct (failed d); [discriminate|].
        destruct (Sql.INT8_MAX <? _); [discriminate|].
        destruct (books_of_rows _); discriminate.
      * pose proof (validate_paging_error q e Ep) as ->.
        unfold search_books, validate_search, required, guard, bind,
          Text.length_between.
        rewrite E, Ep. split; reflexivity.
    + intros resp H.
      destruct (search_books_accepted s q d resp H)
        as (pg & ps & toks & _ & Ht & Hr).
      exists toks. split; [exact Ht|].
      pose proof Hr as Hr'. apply page_response_inv in Hr' as [_ ->].
      exact Hr.
  - unfold search_books, validate_search, Text.length_between. simpl.
    now rewrite E.
Qed.

(** C10. A stored book whose publisher is NULL is selected by a search only
    through its title or its author: for every query the search condition on
    such a row is the disjunction of the two remaining [LIKE] tests, and the
    book is in the results only if one of them holds. *)
Theorem null_publisher_never_matches (query : string) (q : PageQuery)
    (d : Database) (resp : SearchResponse) (r : Row) :
  fst (search_books (Some query) q d) = Ok resp ->
  r_publisher r = None ->
  exists toks,
    Like.parse (query_lower query) = Some toks
    /\ Sql.search_condition toks r
       = Like.matches toks (Text.lower (r_title r))
         || Like.matches toks (Text.lower (r_author r))
    /\ (In (book_view r) (results resp) ->
        Like.matches toks (Text.lower (r_title r)) = true
        \/ Like.matches toks (Text.lower (r_author r)) = true).
Proof.
  intros H Hp.
  destruct (search_books_accepted query q d resp H)
    as (page & ps & toks & _ & Ht & Hr).
  exists toks. split; [exact Ht|].
  split; [now apply search_condition_null_publisher|].
  apply page_response_inv in Hr as [_ ->]. simpl.
  intros Hin. apply in_map_iff in Hin as [r' [Hr' Hin]].
  apply book_view_inj in Hr'. subst r'.
  apply page_slice_incl, filter_In in Hin as [_ Hc].
  rewrite (search_condition_null_publisher toks r Hp) in Hc.
  now apply orb_true_iff in Hc.
Qed.

Lemma null_publisher_never_matches_witness :
  let r := mkRow 1 "Dune" "Frank Herbert" None None in
  let resp := mkSearchResponse 1 1 10 1 [book_view r] in
  (fst (search_books (Some "dun") default_paging (mkDatabase [r] 2 false))
   = Ok resp
   /\ r_publisher r = None)
  /\ exists toks,
      Like.parse (query_lower "dun") = Some toks
      /\ Sql.search_condition toks r
         = Like.matches toks (Text.lower (r_title r))
           || Like.matches toks (Text.lower (r_author r))
      /\ (In (book_view r) (results resp) ->
          Like.matches toks (Text.lower (r_title r)) = true
          \/ Like.matches toks (Text.lower (r_author r)) = true).
Proof.
  intros r resp. split; [split; reflexivity|].
  exact (null_publisher_never_matches "dun" default_paging
           (mkDatabase [r] 2 false) resp r eq_refl eq_refl).
Defined.

(** ** Create *)

Section CreateRoute.

Lemma add_book_body_eq (uuid title author : string)
    (publisher : option string) (cover_image : option UploadFile)
    (w : World) :
  add_book_body uuid title author publisher cover_image w
  = match cover_supplied cover_image with
    | Some (name, content) =>
        let path := os_path_join UPLOAD_DIR (uuid ++ "_" ++ name) in
        if can_open w path && negb (Text.has_nul path)
        then commit_book title author publisher (Some path)
               ((path, content) :: files w) w
        else (Err InternalError500, w)
    | None => commit_book title author publisher None (files w) w
    end.
Proof.
  unfold add_book_body, commit_book, store_book, insert_params, Sql.execute,
    Sql.insert_returning, Sql.insert_book.
  destruct (cover_supplied cover_image) as [[name content]|]; cbv zeta.
  - destruct (can_open w _ && _); [|reflexivity]. cbn [database files can_open].
    destruct (existsb _ _); [reflexivity|].
    destruct (failed (database w)); [reflexivity|]. cbn [orb].
    destruct (make_Book _ _ _ _ _); reflexivity.
  - destruct (existsb _ _); [reflexivity|].
    destruct (failed (database w)); [reflexivity|]. cbn [orb].
    destruct (make_Book _ _ _ _ _); reflexivity.
Qed.

(** The insert is carried out, or the table is left as it was. *)
Lemma commit_book_cases (t a : string) (p c : option string)
    (fs : list (string * list byte)) (w : World) :
  commit_book t a p c fs w
  = (Err InternalError500, mkWorld (database w) fs (can_open w))
  \/ (failed (database w) = false
      /\ existsb Sql.param_has_nul (insert_params t a p c) = false
      /\ commit_book t a p c fs w = store_book t a p c fs w).
Proof.
  unfold commit_book.
  destruct (existsb _ _); [now left|].
  destruct (failed (database w)); [now left|]. right. auto.
Qed.

Lemma form_value_some (v : option string) (s : string) :
  form_value v = Some s -> v = Some s /\ Text.truthy s = true.
Proof.
  destruct v as [[|c v]|]; simpl; intros H; try discriminate.
  injection H as <-. split; reflexivity.
Qed.

Lemma publisher_value_form (v : option string) :
  publisher_value (form_value v) = publisher_value v.
Proof. destruct v as [[|c v]|]; reflexivity. Qed.

Lemma validate_create_inv (f : CreateForm) (t a : string)
    (p : option string) (c : option UploadFile) :
  validate_create f = Ok (t, a, p, c) <->
  form_value (form_title f) = Some t
  /\ form_value (form_author f) = Some a
  /\ p = form_value (form_publisher f)
  /\ optional_length_between 3 100 p = true
  /\ c = form_cover_image f.
Proof.
  unfold validate_create, required, guard, bind.
  destruct (form_value (form_title f)) as [t'|];
    [|split; [discriminate | intros [H _]; discriminate]].
  destruct (form_value (form_author f)) as [a'|];
    [|split; [discriminate | intros [_ [H _]]; discriminate]].
  destruct (optional_length_between 3 100 (form_value (form_publisher f)))
    eqn:E.
  - split.
    + intros H; injection H as <- <- <- <-. auto.
    + intros (Ht & Ha & -> & _ & ->).
      injection Ht as ->; injection Ha as ->. reflexivity.
  - split; [discriminate|]. intros (_ & _ & -> & H & _). congruence.
Qed.

Lemma validate_create_with_cover (f : CreateForm) (c : option UploadFile) :
  validate_create (with_cover f c)
  = match validate_create f with
    | Ok (t, a, p, _) => Ok (t, a, p, c)
    | Err e => Err e
    end.
Proof.
  unfold validate_create, with_cover, required, guard, bind. simpl.
  destruct (form_value (form_title f)); [|reflexivity].
  destruct (form_value (form_author f)); [|reflexivity].
  destruct (optional_length_between _ _ _); reflexivity.
Qed.

Lemma make_Book_inv (i : Z) (t a : string) (p c : option string) (b : Book) :
  raised (make_Book i t a p c) = Ok b ->
  b = mkBook i t a p c /\ book_fields_ok t a p = true.
Proof.
  unfold make_Book. destruct (book_fields_ok t a p); simpl; [|discriminate].
  intros H; injection H as <-. split; reflexivity.
Qed.

Lemma insert_params_nul (t a : string) (p c : option string) :
  existsb Sql.param_has_nul (insert_params t a p c)
  = existsb Sql.param_has_nul (insert_params t a p None)
    || Sql.param_has_nul c.
Proof.
  unfold insert_params. simpl.
  destruct (Text.has_nul (Text.strip t)), (Text.has_nul (Text.strip a)),
    (Sql.param_has_nul (publisher_value p)), (Sql.param_has_nul c);
    reflexivity.
Qed.

End CreateRoute.

Lemma app_one_neq {A : Type} (l : list A) (x : A) : l <> (l ++ [x])%list.
Proof.
  intros H. apply (f_equal (@List.length A)) in H.
  rewrite length_app in H. simpl in H. lia.
Qed.

(** With a cover image the insert is refused whenever it is refused
    without one. *)
Lemma commit_book_refused (t a : string) (p c : option string)
    (fs fs' : list (string * list byte)) (w : World) :
  fst (commit_book t a p None fs w) = Err InternalError500 ->
  books (database (snd (commit_book t a p None fs w))) = books (database w) ->
  commit_book t a p c fs' w
  = (Err InternalError500, mkWorld (database w) fs' (can_open w)).
Proof.
  unfold commit_book. rewrite (insert_params_nul t a p c).
  destruct (existsb _ _); [reflexivity|].
  destruct (failed (database w)).
  - intros _ _. simpl. now rewrite orb_true_r.
  - unfold store_book. simpl. intros _ H. symmetry in H.
    now apply app_one_neq in H.
Qed.

(** C1, the code at a two-character title. No length is declared on the
    [title] form field, so the request reaches the handler: the row is
    inserted and committed, and only then the construction of the [Book]
    answer fails, which the client sees as a 500. *)
Theorem create_short_title_is_stored :
  add_book "7b1c" (mkCreateForm (Some "Hi") (Some "Frank Herbert") None None)
           empty_world
  = (Err InternalError500,
     mkWorld (mkDatabase [mkRow 1 "Hi" "Frank Herbert" None None] 2 false)
             [] (can_open empty_world)).
Proof. reflexivity. Qed.

(** C2, the code at a publisher of three spaces. The field passes its
    declared length check, is truthy, and is stripped to the empty string,
    which is what the committed row holds; the construction of the answer
    then fails. *)
Theorem create_blank_publisher_is_stored_empty :
  add_book "7b1c"
           (mkCreateForm (Some "Dune") (Some "Frank Herbert") (Some "   ") None)
           empty_world
  = (Err InternalError500,
     mkWorld
       (mkDatabase [mkRow 1 "Dune" "Frank Herbert" (Some "") None] 2 false)
       [] (can_open empty_world)).
Proof. reflexivity. Qed.

(** C6. When a create request carries no cover image (no file part, or a
    file part without a file name), nothing is written to the upload
    directory, the row that is stored and the record that is returned have a
    null [cover_image_path], and they agree in every other field with what
    the same form creates when a file is attached. *)
Theorem create_without_cover (uuid : string) (f : CreateForm) (w : World) :
  cover_supplied (form_cover_image f) = None ->
  files (snd (add_book uuid f w)) = files w
  /\ (forall b, fst (add_book uuid f w) = Ok b -> cover_image_path b = None)
  /\ (forall r, In r (books (database (snd (add_book uuid f w)))) ->
                In r (books (database w)) \/ r_cover_image_path r = None)
  /\ (forall uuid' c b',
        fst (add_book uuid' (with_cover f c) w) = Ok b' ->
        fst (add_book uuid f w)
        = Ok (mkBook (id b') (title b') (author b') (publisher b') None))
  /\ (forall uuid' c r',
        books (database (snd (add_book uuid' (with_cover f c) w)))
        = (books (database w) ++ [r'])%list ->
        books (database (snd (add_book uuid f w)))
        = (books (database w)
           ++ [mkRow (r_id r') (r_title r') (r_author r') (r_publisher r')
                     None])%list).
Proof.
  intros Hc. unfold add_book.
  destruct (validate_create f) as [[[[t a] p] c0]|e] eqn:E.
  - assert (c0 = form_cover_image f) by (apply validate_create_inv in E; tauto).
    subst c0. rewrite add_book_body_eq, Hc.
    destruct (commit_book_cases t a p None (files w) w)
      as [Hno | (Hf & Hn & Hyes)].
    + (* the insert is refused: with a file it is refused as well *)
      assert (Hc' : forall c fs',
                 commit_book t a p c fs' w
                 = (Err InternalError500,
                    mkWorld (database w) fs' (can_open w)))
        by (intros c fs'; apply (commit_book_refused t a p c (files w));
            rewrite Hno; reflexivity).
      rewrite Hno. simpl.
      split; [reflexivity|]. split; [discriminate|]. split; [auto|]. split.
      * intros uuid' c b'.
        rewrite validate_create_with_cover, E, add_book_body_eq.
        destruct (cover_supplied c) as [[name content]|]; cbv zeta;
          [destruct (_ && _); [|discriminate]|]; rewrite Hc'; discriminate.
      * intros uuid' c r'.
        rewrite validate_create_with_cover, E, add_book_body_eq.
        destruct (cover_supplied c) as [[name content]|]; cbv zeta;
          [destruct (_ && _)|]; rewrite ?Hc'; simpl;
          intros Hr; now apply app_one_neq in Hr.
    + rewrite Hyes. unfold store_book. simpl.
      split; [reflexivity|].
      split; [intros b Hb; apply make_Book_inv in Hb as [-> _]; reflexivity|].
      split.
      { intros r Hr. apply in_app_or in Hr as [Hr | [<- | []]]; auto. }
      split.
      * intros uuid' c b'.
        rewrite validate_create_with_cover, E, add_book_body_eq.
        destruct (cover_supplied c) as [[name content]|]; cbv zeta;
          [destruct (_ && _); [|discriminate]|];
          (match goal with
           | |- context [commit_book ?t ?a ?p ?c ?fs ?w] =>
               destruct (commit_book_cases t a p c fs w)
                 as [-> | (_ & _ & ->)]
           end; [discriminate|]);
          unfold store_book; simpl; intros Hb;
          apply make_Book_inv in Hb as [-> Hok];
          unfold make_Book; rewrite Hok; reflexivity.
      * intros uuid' c r'.
        rewrite validate_create_with_cover, E, add_book_body_eq.
        destruct (cover_supplied c) as [[name content]|]; cbv zeta;
          [destruct (_ && _);
             [|simpl; intros Hr; now apply app_one_neq in Hr]|];
          (match goal with
           | |- context [commit_book ?t ?a ?p ?c ?fs ?w] =>
               destruct (commit_book_cases t a p c fs w)
                 as [-> | (_ & _ & ->)]
           end; [simpl; intros Hr; now apply app_one_neq in Hr|]);
          unfold store_book; simpl; intros Hr;
          apply app_inv_head in Hr; injection Hr as <-; reflexivity.
  - simpl. split; [reflexivity|]. split; [discriminate|].
    split; [auto|]. split.
    + intros uuid' c b'. rewrite validate_create_with_cover, E. discriminate.
    + intros uuid' c r'. rewrite validate_create_with_cover, E. simpl.
      intros Hr. now apply app_one_neq in Hr.
Qed.

Lemma create_without_cover_witness :
  cover_supplied (form_cover_image dune_form) = None
  /\ add_book "7b1c" dune_form empty_world
     = (Ok (dune_book 1),
        mkWorld dune_db [] (can_open empty_world))
  /\ files (snd (add_book "7b1c" dune_form empty_world)) = files empty_world.
Proof.
  split; [reflexivity|]. split; [reflexivity|].
  apply (create_without_cover "7b1c" dune_form empty_world). reflexivity.
Defined.

(** C8. When a create request succeeds, the answer is the record with the
    id generated by the insert, the title and the author stripped of leading
    and trailing whitespace, the publisher stripped, or null when it was not
    sent or sent empty, and the path of the stored cover image; the row
    that was stored holds exactly these values. *)
Theorem create_returns_trimmed_record (uuid : string) (f : CreateForm)
    (w w' : World) (b : Book) :
  add_book uuid f w = (Ok b, w') ->
  exists t a,
    form_title f = Some t /\ form_author f = Some a
    /\ b = mkBook (next_id (database w)) (Text.strip t) (Text.strip a)
                  (publisher_value (form_publisher f))
                  (cover_path uuid (form_cover_image f))
    /\ books (database w')
       = (books (database w)
          ++ [mkRow (id b) (title b) (author b) (publisher b)
                    (cover_image_path b)])%list
    /\ (exists l r, t = l ++ title b ++ r
                    /\ Text.all_space l = true /\ Text.all_space r = true)
    /\ (exists l r, a = l ++ author b ++ r
                    /\ Text.all_space l = true /\ Text.all_space r = true)
    /\ Text.starts_with_space (title b) = false
    /\ Text.ends_with_space (title b) = false
    /\ Text.starts_with_space (author b) = false
    /\ Text.ends_with_space (author b) = false
    /\ publisher b <> Some "".
Proof.
  unfold add_book. intros H.
  destruct (validate_create f) as [[[[t a] p] c]|e] eqn:E;
    [|discriminate].
  apply validate_create_inv in E as (Ht & Ha & -> & _ & ->).
  apply form_value_some in Ht as [Ht _]. apply form_value_some in Ha as [Ha _].
  rewrite add_book_body_eq in H.
  exists t, a. split; [exact Ht|]. split; [exact Ha|].
  assert (Hb : b = mkBook (next_id (database w)) (Text.strip t) (Text.strip a)
                 (publisher_value (form_publisher f))
                 (cover_path uuid (form_cover_image f))
               /\ book_fields_ok (Text.strip t) (Text.strip a)
                    (publisher_value (form_publisher f)) = true
               /\ books (database w')
                  = (books (database w)
                     ++ [mkRow (next_id (database w)) (Text.strip t)
                           (Text.strip a) (publisher_value (form_publisher f))
                           (cover_path uuid (form_cover_image f))])%list).
  { unfold cover_path.
    destruct (cover_supplied (form_cover_image f)) as [[name content]|];
      cbv zeta in H; [destruct (_ && _); [|discriminate]|];
      (match type of H with
       | commit_book ?t ?a ?p ?c ?fs ?w = _ =>
           destruct (commit_book_cases t a p c fs w)
             as [Hno | (_ & _ & Hyes)]
       end; [rewrite Hno in H; discriminate|]);
      rewrite Hyes in H; unfold store_book in H;
      rewrite !publisher_value_form in H;
      injection H as Hb <-;
      apply make_Book_inv in Hb as [-> Hok]; auto. }
  destruct Hb as (-> & Hok & Hrows). simpl.
  split; [reflexivity|]. split; [exact Hrows|].
  destruct (strip_spec t) as (l & r & Hs & Hl & Hr & Hh & Hz).
  destruct (strip_spec a) as (l' & r' & Hs' & Hl' & Hr' & Hh' & Hz').
  split; [now exists l, r|]. split; [now exists l', r'|].
  do 4 (split; [assumption|]).
  intros Hp. unfold book_fields_ok in Hok. rewrite Hp in Hok.
  rewrite !andb_true_iff in Hok. destruct Hok as [_ Hok]. discriminate.
Qed.

Lemma create_returns_trimmed_record_witness :
  let f := mkCreateForm (Some "  Dune ") (Some " Frank Herbert")
             (Some " Ace ")
             (Some (mkUploadFile (Some "cover.png") [x89; x50; x4e; x47])) in
  let b := mkBook 1 "Dune" "Frank Herbert" (Some "Ace")
             (Some "uploads/7b1c_cover.png") in
  let w' := mkWorld
              (mkDatabase [mkRow 1 "Dune" "Frank Herbert" (Some "Ace")
                             (Some "uploads/7b1c_cover.png")] 2 false)
              [("uploads/7b1c_cover.png", [x89; x50; x4e; x47])]
              (can_open empty_world) in
  add_book "7b1c" f empty_world = (Ok b, w')
  /\ exists t a,
      form_title f = Some t /\ form_author f = Some a
      /\ b = mkBook (next_id (database empty_world))
                    (Text.strip t) (Text.strip a)
                    (publisher_value (form_publisher f))
                    (cover_path "7b1c" (form_cover_image f)).
Proof.
  intros f b w'. split; [reflexivity|].
  destruct (create_returns_trimmed_record "7b1c" f empty_world w' b eq_refl)
    as (t & a & Ht & Ha & Hb & _).
  exists t, a. repeat split; assumption.
Defined.

(** * Further properties of the routes *)

(** ** What a create request does to the state *)

Section CreateEffects.

Variables (uuid : string) (f : CreateForm) (w : World).

(** A create request stops before touching anything; or it gets as far
    as the insert, which is refused, after at most one file write; or it
    commits one row built from the validated fields, after at most one file
    write. *)
Lemma add_book_cases :
  (snd (add_book uuid f w) = w /\ exists e, fst (add_book uuid f w) = Err e)
  \/ (exists fs,
        add_book uuid f w
        = (Err InternalError500, mkWorld (database w) fs (can_open w))
        /\ (fs = files w \/ exists entry, fs = entry :: files w))
  \/ exists t a c fs,
      form_value (form_title f) = Some t
      /\ form_value (form_author f) = Some a
      /\ optional_length_between 3 100 (form_value (form_publisher f)) = true
      /\ failed (database w) = false
      /\ add_book uuid f w
         = store_book t a (form_value (form_publisher f)) c fs w
      /\ (cover_supplied (form_cover_image f) = None
          /\ c = None /\ fs = files w
          \/ exists name content,
              cover_supplied (form_cover_image f) = Some (name, content)
              /\ c = Some (os_path_join UPLOAD_DIR (uuid ++ "_" ++ name))
              /\ fs = (os_path_join UPLOAD_DIR (uuid ++ "_" ++ name), content)
                      :: files w).
Proof.
  unfold add_book.
  destruct (validate_create f) as [[[[t a] p] c0]|e] eqn:E.
  - apply validate_create_inv in E as (Ht & Ha & -> & Hp & ->).
    rewrite add_book_body_eq.
    destruct (cover_supplied (form_cover_image f)) as [[name content]|] eqn:Hc;
      cbv zeta.
    + destruct (_ && _).
      * match goal with
        | |- context [commit_book ?t ?a ?p ?c ?fs ?w] =>
            destruct (commit_book_cases t a p c fs w)
              as [-> | (Hf & _ & ->)]
        end.
        -- right; left. eexists. split; [reflexivity|]. right. eexists.
           reflexivity.
        -- right; right. exists t, a. eexists. eexists.
           do 5 (split; [eassumption || reflexivity|]).
           right. exists name, content. repeat split.
      * left. split; [reflexivity | eexists; reflexivity].
    + destruct (commit_book_cases t a (form_value (form_publisher f)) None
                  (files w) w) as [-> | (Hf & _ & ->)].
      * right; left. eexists. split; [reflexivity|]. now left.
      * right; right. exists t, a, None, (files w).
        do 5 (split; [assumption || reflexivity|]). left. auto.
  - left. split; [reflexivity | eexists; reflexivity].
Qed.

(** A create request that is answered 201 has carried out its insert. *)
Lemma add_book_ok (b : Book) :
  fst (add_book uuid f w) = Ok b ->
  exists t a c fs,
    form_value (form_title f) = Some t
    /\ form_value (form_author f) = Some a
    /\ optional_length_between 3 100 (form_value (form_publisher f)) = true
    /\ failed (database w) = false
    /\ add_book uuid f w
       = store_book t a (form_value (form_publisher f)) c fs w
    /\ (cover_supplied (form_cover_image f) = None
        /\ c = None /\ fs = files w
        \/ exists name content,
            cover_supplied (form_cover_image f) = Some (name, content)
            /\ c = Some (os_path_join UPLOAD_DIR (uuid ++ "_" ++ name))
            /\ fs = (os_path_join UPLOAD_DIR (uuid ++ "_" ++ name), content)
                    :: files w).
Proof.
  intros H.
  destruct add_book_cases as [[_ [e He]] | [(fs & He & _) | Hstored]].
  - rewrite He in H. discriminate.
  - rewrite He in H. discriminate.
  - exact Hstored.
Qed.

End CreateEffects.

Lemma sorted_snoc (l : list Row) (r : Row) :
  StronglySorted id_lt l -> Forall (fun x => r_id x < r_id r) l ->
  StronglySorted id_lt (l ++ [r]).
Proof.
  induction 1 as [|x l Hl IH Hx]; simpl; intros Hr.
  - repeat constructor.
  - inversion Hr as [|? ? Hxr Hlr]; subst. constructor; [now apply IH|].
    apply Forall_app. split; [exact Hx | now repeat constructor].
Qed.

(** X1. Ids stay fresh: if the stored ids ascend strictly and lie below the
    next sequence value, they still do after a create request, whatever its
    outcome, and a created book gets an id above every id stored before. *)
Theorem add_book_keeps_ids_fresh (uuid : string) (f : CreateForm)
    (w : World) :
  ids_fresh (database w) ->
  ids_fresh (database (snd (add_book uuid f w)))
  /\ forall b, fst (add_book uuid f w) = Ok b ->
               id b = next_id (database w)
               /\ Forall (fun r => r_id r < id b) (books (database w)).
Proof.
  intros [Hs Hb].
  destruct (add_book_cases uuid f w)
    as [[-> [e ->]] | [(fs & -> & _)
                      | (t & a & c & fs & _ & _ & _ & _ & -> & _)]].
  - split; [now split | discriminate].
  - split; [now split | discriminate].
  - unfold store_book, ids_fresh. simpl. split.
    + split; [now apply sorted_snoc|].
      apply Forall_app. split.
      * eapply Forall_impl; [|exact Hb]. simpl; intros; lia.
      * repeat constructor. simpl. lia.
    + intros b H. apply make_Book_inv in H as [-> _]. simpl. now split.
Qed.

Lemma add_book_keeps_ids_fresh_witness :
  ids_fresh (database empty_world)
  /\ ids_fresh (database (snd (add_book "7b1c" dune_form empty_world))).
Proof.
  assert (H : ids_fresh (database empty_world))
    by (split; constructor).
  split; [exact H|].
  apply (add_book_keeps_ids_fresh "7b1c" dune_form empty_world H).
Defined.

(** X2. No dangling cover: if every stored cover path names a file of the
    upload directory, this still holds after a create request, whatever its
    outcome; and a created book with a cover path has the uploaded bytes,
    unchanged, as the newest file under that path. *)
Theorem add_book_keeps_covers_present (uuid : string) (f : CreateForm)
    (w : World) :
  covers_present w ->
  covers_present (snd (add_book uuid f w))
  /\ forall b p,
      fst (add_book uuid f w) = Ok b -> cover_image_path b = Some p ->
      exists up name,
        form_cover_image f = Some up /\ filename up = Some name
        /\ p = os_path_join UPLOAD_DIR (uuid ++ "_" ++ name)
        /\ files (snd (add_book uuid f w)) = (p, file up) :: files w.
Proof.
  intros Hw.
  destruct (add_book_cases uuid f w)
    as [[-> [e ->]] | [(fs & -> & Hfs)
                      | (t & a & c & fs & _ & _ & _ & _ & -> & Hc)]].
  - split; [exact Hw | discriminate].
  - split; [|discriminate]. intros r p Hr Hp. simpl in Hr |- *.
    destruct (Hw r p Hr Hp) as [content Hin]. exists content.
    destruct Hfs as [-> | [entry ->]]; [exact Hin | now right].
  - unfold store_book. simpl. split.
    + intros r p Hr Hp. simpl in Hr. apply in_app_or in Hr as [Hr | [<- | []]].
      * destruct (Hw r p Hr Hp) as [content Hin]. exists content.
        destruct Hc as [(_ & _ & ->) | (n & ct & _ & _ & ->)];
          [exact Hin | now right].
      * simpl in Hp. subst c.
        destruct Hc as [(_ & Hn & _) | (n & ct & _ & Hp & ->)];
          [discriminate|]. injection Hp as ->. exists ct. now left.
    + intros b p Hb Hp. apply make_Book_inv in Hb as [-> _]. simpl in Hp.
      subst c. destruct Hc as [(_ & Hn & _) | (n & ct & Hs & Hp & ->)];
        [discriminate|]. injection Hp as ->.
      unfold cover_supplied in Hs.
      destruct (form_cover_image f) as [up|]; [|discriminate].
      destruct (filename up) as [name|] eqn:Hf; [|discriminate].
      destruct (Text.truthy name); [|discriminate].
      injection Hs as <- <-. exists up, name. repeat split. exact Hf.
Qed.

Lemma add_book_keeps_covers_present_witness :
  let f := mkCreateForm (Some "Dune") (Some "Frank Herbert") None
             (Some (mkUploadFile (Some "cover.png") [x89; x50; x4e; x47])) in
  covers_present empty_world
  /\ covers_present (snd (add_book "7b1c" f empty_world)).
Proof.
  intros f.
  assert (H : covers_present empty_world) by (intros r p []).
  split; [exact H|].
  apply (add_book_keeps_covers_present "7b1c" f empty_world H).
Defined.

(** X3. A create request never alters or removes what is stored: the rows
    and the files present before are still there, in place; at most one row
    and at most one file are added, and the sequence moves on by the number
    of rows added. *)
Theorem add_book_only_appends (uuid : string) (f : CreateForm) (w : World) :
  exists rows fs,
    books (database (snd (add_book uuid f w)))
    = (books (database w) ++ rows)%list
    /\ files (snd (add_book uuid f w)) = (fs ++ files w)%list
    /\ (List.length rows <= 1)%nat /\ (List.length fs <= 1)%nat
    /\ next_id (database (snd (add_book uuid f w)))
       = next_id (database w) + Z.of_nat (List.length rows).
Proof.
  destruct (add_book_cases uuid f w)
    as [[-> _] | [(fs & -> & Hfs)
                 | (t & a & c & fs & _ & _ & _ & _ & -> & Hc)]].
  - exists [], []. rewrite app_nil_r. simpl. repeat split; auto; lia.
  - exists []. rewrite app_nil_r. simpl.
    destruct Hfs as [-> | [entry ->]].
    + exists []. simpl. repeat split; auto; lia.
    + exists [entry]. simpl. repeat split; auto; lia.
  - unfold store_book. simpl. eexists.
    destruct Hc as [(_ & _ & ->) | (n & ct & _ & _ & ->)].
    + exists []. simpl. repeat split; auto.
    + eexists [_]. simpl. repeat split; auto.
Qed.

(** X4. A create request is answered 422 exactly when the title or the
    author is missing or empty, or a publisher was sent whose length as sent
    is outside 3..100; a request answered 422 leaves the table and the
    upload directory as they were. *)
Theorem create_rejected_iff (uuid : string) (f : CreateForm) (w : World) :
  (fst (add_book uuid f w) = Err Unprocessable422 <->
   form_title f = None \/ form_title f = Some ""
   \/ form_author f = None \/ form_author f = Some ""
   \/ exists p, form_publisher f = Some p /\ p <> ""
                 /\ ~ (3 <= Text.len p <= 100))
  /\ (fst (add_book uuid f w) = Err Unprocessable422 ->
      snd (add_book uuid f w) = w).
Proof.
  unfold add_book, validate_create, required, guard, bind.
  destruct (form_title f) as [[|ct t]|]; simpl;
    try (split; [split; [tauto | reflexivity] | reflexivity]).
  destruct (form_author f) as [[|ca a]|]; simpl;
    try (split; [split; [tauto | reflexivity] | reflexivity]).
  assert (Hbody : forall p c,
             fst (add_book_body uuid (String ct t) (String ca a) p c w)
             <> Err Unprocessable422).
  { intros p c. rewrite add_book_body_eq.
    destruct (cover_supplied c) as [[n content]|]; cbv zeta;
      [destruct (_ && _); [|discriminate]|];
      unfold commit_book; (destruct (_ || _); [discriminate|]);
      unfold store_book, raised; simpl;
      destruct (make_Book _ _ _ _ _); discriminate. }
  destruct (form_publisher f) as [[|cp p]|]; simpl.
  - split; [split|]; intros H.
    + now apply Hbody in H.
    + destruct H as [H|[H|[H|[H|(p & Hp & Hn & _)]]]]; try discriminate.
      injection Hp as <-. contradiction.
    + now apply Hbody in H.
  - unfold Text.length_between.
    destruct ((3 <=? Text.len (String cp p))
              && (Text.len (String cp p) <=? 100)) eqn:E; simpl.
    + apply andb_true_iff in E as [E1 E2].
      apply Z.leb_le in E1, E2.
      split; [split|]; intros H.
      * now apply Hbody in H.
      * destruct H as [H|[H|[H|[H|(p' & Hp & _ & Hl)]]]]; try discriminate.
        injection Hp as <-. contradiction Hl. split; assumption.
      * now apply Hbody in H.
    + split; [split; [intros _|reflexivity] | reflexivity].
      right; right; right; right. exists (String cp p).
      split; [reflexivity|]. split; [discriminate|].
      intros [H1 H2]. apply Z.leb_le in H1, H2. rewrite H1, H2 in E.
      discriminate.
  - split; [split|]; intros H.
    + now apply Hbody in H.
    + destruct H as [H|[H|[H|[H|(p & Hp & _)]]]]; discriminate.
    + now apply Hbody in H.
Qed.

(** ** What the read routes return *)

Section SortedSublists.

Context {A : Type} (R : A -> A -> Prop).

Lemma sorted_skipn (n : nat) (l : list A) :
  StronglySorted R l -> StronglySorted R (skipn n l).
Proof.
  revert l; induction n as [|n IH]; intros l H; [exact H|].
  destruct l as [|x l]; [exact H|]. simpl. apply IH.
  now inversion H.
Qed.

Lemma sorted_firstn (n : nat) (l : list A) :
  StronglySorted R l -> StronglySorted R (firstn n l).
Proof.
  revert l; induction n as [|n IH]; intros l H; [constructor|].
  destruct l as [|x l]; [constructor|]. simpl.
  inversion H as [|? ? Hl Hx]; subst. constructor; [now apply IH|].
  rewrite Forall_forall in *. intros y Hy. apply Hx.
  rewrite <- (firstn_skipn n l). apply in_or_app. now left.
Qed.

End SortedSublists.

Lemma sorted_book_view (l : list Row) :
  StronglySorted id_le l -> StronglySorted book_id_le (map book_view l).
Proof.
  induction 1 as [|x l Hl IH Hx]; simpl; constructor; [exact IH|].
  rewrite Forall_forall in *. intros b Hb.
  apply in_map_iff in Hb as [r [<- Hr]]. exact (Hx r Hr).
Qed.

Lemma page_slice_sorted (page page_size : Z) (rows : list Row) :
  StronglySorted id_le (page_slice page page_size rows).
Proof.
  unfold page_slice. apply sorted_firstn, sorted_skipn, order_by_id_sorted.
Qed.

Lemma filter_shorter {A : Type} (g : A -> bool) (l : list A) :
  (List.length (filter g l) <= List.length l)%nat.
Proof.
  induction l as [|x l IH]; simpl; [lia|]. destruct (g x); simpl; lia.
Qed.

Lemma page_slice_length_exact (page page_size : Z) (rows : list Row) :
  1 <= page -> 0 <= page_size ->
  Z.of_nat (List.length (page_slice page page_size rows))
  = Z.max 0 (Z.min page_size (Sql.count rows - (page - 1) * page_size)).
Proof.
  intros Hp Hs. unfold page_slice, Sql.count.
  rewrite length_firstn, length_skipn, order_by_id_length.
  assert (0 <= (page - 1) * page_size) by nia.
  set (k := (page - 1) * page_size) in *. lia.
Qed.

(** X5. The books in an answer of the list route or of the search route are
    in ascending id order, and each of them is a row of the table, column
    for column. *)
Theorem results_sorted_and_stored (query : option string) (q : PageQuery)
    (d : Database) (resp : SearchResponse) :
  fst (get_all_books q d) = Ok resp \/ fst (search_books query q d) = Ok resp ->
  StronglySorted book_id_le (results resp)
  /\ forall b, In b (results resp) ->
               exists r, In r (books d) /\ b = book_view r.
Proof.
  intros H.
  destruct (read_route_inv query q d resp H) as (pg & ps & rows & _ & Hi & Hr).
  apply page_response_inv in Hr as [_ ->]. simpl. split.
  - apply sorted_book_view, page_slice_sorted.
  - intros b Hb. apply in_map_iff in Hb as [r [<- Hr]].
    exists r. split; [|reflexivity]. apply Hi.
    now apply page_slice_incl in Hr.
Qed.

Lemma results_sorted_and_stored_witness :
  (fst (get_all_books (mkPageQuery (Some 2) (Some 10)) (catalogue 12))
   = Ok second_page_of_twelve
   \/ fst (search_books None (mkPageQuery (Some 2) (Some 10)) (catalogue 12))
      = Ok second_page_of_twelve)
  /\ StronglySorted book_id_le [dune_book 11; dune_book 12].
Proof.
  split; [left; reflexivity|].
  apply (results_sorted_and_stored None (mkPageQuery (Some 2) (Some 10))
           (catalogue 12) second_page_of_twelve).
  left; reflexivity.
Defined.

(** X6. An answer of either read route carries exactly
    [min(page_size, total - (page - 1) * page_size)] books, or none when
    that is negative: every page before the last is full.  It is empty
    exactly when [page] is greater than [total_pages]. *)
Theorem results_length (query : option string) (q : PageQuery)
    (d : Database) (resp : SearchResponse) :
  fst (get_all_books q d) = Ok resp \/ fst (search_books query q d) = Ok resp ->
  Z.of_nat (List.length (results resp))
  = Z.max 0 (Z.min (page_size resp)
               (total resp - (page resp - 1) * page_size resp))
  /\ (results resp = [] <-> total_pages resp < page resp).
Proof.
  intros H.
  destruct (read_route_inv query q d resp H) as (pg & ps & rows & Hv & _ & Hr).
  apply validate_paging_inv in Hv as (_ & _ & Hpg & Hps).
  apply page_response_inv in Hr as [_ ->]. simpl.
  pose proof (page_slice_length_exact pg ps rows Hpg ltac:(lia)) as Hl.
  rewrite length_map. split; [exact Hl|].
  assert (Hc : 0 <= Sql.count rows) by (unfold Sql.count; lia).
  destruct (page_count_ceiling (Sql.count rows) ps Hc ltac:(lia)) as [H1 H2].
  split.
  - intros He. apply (f_equal (@List.length Book)) in He.
    rewrite length_map in He. simpl in He. nia.
  - intros Hlt.
    destruct (map book_view (page_slice pg ps rows)) as [|b bs] eqn:E;
      [reflexivity|].
    apply (f_equal (@List.length Book)) in E. rewrite length_map in E.
    simpl in E. nia.
Qed.

Lemma results_length_witness :
  (fst (get_all_books (mkPageQuery (Some 2) (Some 10)) (catalogue 12))
   = Ok second_page_of_twelve
   \/ fst (search_books None (mkPageQuery (Some 2) (Some 10)) (catalogue 12))
      = Ok second_page_of_twelve)
  /\ Z.of_nat (List.length (results second_page_of_twelve))
     = Z.max 0 (Z.min 10 (12 - (2 - 1) * 10)).
Proof.
  split; [left; reflexivity|].
  apply (results_length None (mkPageQuery (Some 2) (Some 10))
           (catalogue 12) second_page_of_twelve).
  left; reflexivity.
Defined.

(** X7. Pages neither overlap nor leave a gap: the book of rank [i]
    (counting from 0) in id order is item [i mod page_size] of page
    [i / page_size + 1] of the list route. *)
Theorem book_of_rank_is_on_its_page (i : nat) (page_size : Z) (d : Database)
    (r : Row) (resp : SearchResponse) :
  1 <= page_size <= 50 ->
  nth_error (Sql.order_by_id (books d)) i = Some r ->
  fst (get_all_books
    (mkPageQuery (Some (Z.of_nat i / page_size + 1)) (Some page_size)) d)
  = Ok resp ->
  nth_error (results resp) (Z.to_nat (Z.of_nat i mod page_size))
  = Some (book_view r).
Proof.
  intros Hs Hi H.
  pose proof (Z.div_pos (Z.of_nat i) page_size ltac:(lia) ltac:(lia)) as Hq.
  pose proof (Z.mod_pos_bound (Z.of_nat i) page_size ltac:(lia)) as Hm.
  pose proof (Z.div_mod (Z.of_nat i) page_size ltac:(lia)) as Hd.
  destruct (get_all_books_ok _ d resp H) as (pg & ps & Hv & Hr).
  apply validate_paging_inv in Hv as (-> & -> & _). simpl in Hr.
  apply page_response_inv in Hr as [_ ->]. simpl.
  rewrite nth_error_map. unfold page_slice.
  rewrite nth_error_firstn.
  replace (_ <? _)%nat with true by (symmetry; apply Nat.ltb_lt; lia).
  rewrite nth_error_skipn.
  replace (_ + _)%nat with i by nia.
  now rewrite Hi.
Qed.

Lemma book_of_rank_is_on_its_page_witness :
  (1 <= 10 <= 50
   /\ nth_error (Sql.order_by_id (books (catalogue 12))) 11
      = Some (mkRow 12 "Dune" "Frank Herbert" (Some "Ace") None)
   /\ fst (get_all_books (mkPageQuery (Some (Z.of_nat 11 / 10 + 1)) (Some 10))
        (catalogue 12))
      = Ok second_page_of_twelve)
  /\ nth_error (results second_page_of_twelve)
       (Z.to_nat (Z.of_nat 11 mod 10))
     = Some (dune_book 12).
Proof.
  split; [split; [lia | split; reflexivity]|].
  exact (book_of_rank_is_on_its_page 11 10 (catalogue 12)
           (mkRow 12 "Dune" "Frank Herbert" (Some "Ace") None)
           second_page_of_twelve ltac:(lia) eq_refl eq_refl).
Defined.

(** X8. Over the same table a search never counts more books than the
    list route, and so never has more pages for the same page size. *)
Theorem search_total_at_most_list_total (query : option string)
    (q q' : PageQuery) (d : Database) (found listed : SearchResponse) :
  fst (search_books query q d) = Ok found ->
  fst (get_all_books q' d) = Ok listed ->
  total found <= total listed
  /\ (page_size found = page_size listed ->
      total_pages found <= total_pages listed).
Proof.
  intros Hf Hl.
  destruct (search_books_ok query q d found Hf)
    as (s & pg & ps & toks & E & _ & Hr).
  apply page_response_inv in Hr as [_ ->].
  apply validate_search_inv in E as (_ & _ & E).
  apply validate_paging_inv in E as (_ & _ & _ & Hps).
  destruct (get_all_books_ok q' d listed Hl) as (pg' & ps' & _ & Hr').
  apply page_response_inv in Hr' as [_ ->]. simpl.
  pose proof (filter_shorter (Sql.search_condition toks) (books d)) as Hle.
  assert (Ht : Sql.count (filter (Sql.search_condition toks) (books d))
               <= Sql.count (books d)) by (unfold Sql.count; lia).
  split; [exact Ht|]. intros <-. unfold page_count.
  apply Z.div_le_mono; lia.
Qed.

Lemma search_total_at_most_list_total_witness :
  (fst (search_books (Some "xyz") default_paging dune_db)
   = Ok (mkSearchResponse 0 1 10 0 [])
   /\ fst (get_all_books default_paging dune_db)
      = Ok (mkSearchResponse 1 1 10 1 [dune_book 1]))
  /\ 0 <= 1.
Proof.
  split; [split; reflexivity|].
  destruct (search_total_at_most_list_total (Some "xyz") default_paging
              default_paging dune_db (mkSearchResponse 0 1 10 0 [])
              (mkSearchResponse 1 1 10 1 [dune_book 1]) eq_refl eq_refl)
    as [H _].
  exact H.
Defined.

(** ** Normal forms of the query text *)

Section QueryText.

Import Text.

Lemma lower_char_idem (c : ascii) : lower_char (lower_char c) = lower_char c.
Proof. destruct c as [[] [] [] [] [] [] [] []]; vm_compute; reflexivity. Qed.

Lemma is_space_lower_char (c : ascii) : is_space (lower_char c) = is_space c.
Proof. destruct c as [[] [] [] [] [] [] [] []]; vm_compute; reflexivity. Qed.

Lemma lower_idem (s : string) : lower (lower s) = lower s.
Proof.
  induction s as [|c s IH]; simpl; [reflexivity|].
  now rewrite lower_char_idem, IH.
Qed.

Lemma lstrip_lower (s : string) : lstrip (lower s) = lower (lstrip s).
Proof.
  induction s as [|c s IH]; simpl; [reflexivity|].
  rewrite is_space_lower_char. destruct (is_space c); [exact IH | reflexivity].
Qed.

Lemma rstrip_lower (s : string) : rstrip (lower s) = lower (rstrip s).
Proof.
  induction s as [|c s IH]; simpl; [reflexivity|].
  rewrite IH, is_space_lower_char.
  destruct (rstrip s); simpl; [destruct (is_space c)|]; reflexivity.
Qed.

Lemma strip_lower (s : string) : strip (lower s) = lower (strip s).
Proof. unfold strip. now rewrite lstrip_lower, rstrip_lower. Qed.

Lemma lstrip_all_space (s : string) : all_space s = true -> lstrip s = "".
Proof.
  induction s as [|c s IH]; simpl; [reflexivity|].
  destruct (is_space c); [exact IH | discriminate].
Qed.

Lemma lstrip_fixed (s : string) :
  starts_with_space s = false -> lstrip s = s.
Proof. destruct s as [|c s]; simpl; [reflexivity|]. now intros ->. Qed.

Lemma rstrip_fixed (s : string) : ends_with_space s = false -> rstrip s = s.
Proof.
  induction s as [|c s IH]; [reflexivity|].
  destruct s as [|d s].
  - simpl. now intros ->.
  - intros H. change (ends_with_space (String d s) = false) in H.
    change (rstrip (String c (String d s)))
      with (match rstrip (String d s) with
            | EmptyString =>
                if is_space c then EmptyString else String c EmptyString
            | r => String c r
            end).
    now rewrite (IH H).
Qed.

Lemma strip_idem (s : string) : strip (strip s) = strip s.
Proof.
  destruct (strip_spec s) as (_ & _ & _ & _ & _ & Hh & Ht).
  unfold strip at 1. now rewrite (lstrip_fixed _ Hh), (rstrip_fixed _ Ht).
Qed.

Lemma space_not_nul (c : ascii) :
  is_space c = true -> (c =? zero)%char = false.
Proof.
  intros H. destruct (c =? zero)%char eqn:E; [|reflexivity].
  apply Ascii.eqb_eq in E. subst c. discriminate H.
Qed.

Lemma lower_char_nul (c : ascii) :
  (lower_char c =? zero)%char = (c =? zero)%char.
Proof. destruct c as [[] [] [] [] [] [] [] []]; vm_compute; reflexivity. Qed.

Lemma has_nul_append (a b : string) :
  has_nul (a ++ b) = has_nul a || has_nul b.
Proof.
  induction a as [|c a IH]; simpl; [reflexivity|].
  now rewrite IH, orb_assoc.
Qed.

Lemma has_nul_lower (s : string) : has_nul (lower s) = has_nul s.
Proof.
  induction s as [|c s IH]; simpl; [reflexivity|].
  now rewrite lower_char_nul, IH.
Qed.

Lemma has_nul_lstrip (s : string) : has_nul (lstrip s) = has_nul s.
Proof.
  induction s as [|c s IH]; simpl; [reflexivity|].
  destruct (is_space c) eqn:Hc; [|reflexivity].
  now rewrite (space_not_nul c Hc), IH.
Qed.

Lemma has_nul_rstrip (s : string) : has_nul (rstrip s) = has_nul s.
Proof.
  induction s as [|c s IH]; simpl; [reflexivity|].
  destruct (rstrip s) as [|d r].
  - simpl in IH. rewrite <- IH.
    destruct (is_space c) eqn:Hc; simpl; [|reflexivity].
    now rewrite (space_not_nul c Hc).
  - rewrite <- IH. reflexivity.
Qed.

(** The pattern sent to the server holds NUL exactly when the query does. *)
Lemma has_nul_query_lower (s : string) :
  has_nul (query_lower s) = has_nul s.
Proof.
  unfold query_lower, strip.
  change ("%" ++ lower (rstrip (lstrip s)) ++ "%")
    with (String "%" (lower (rstrip (lstrip s)) ++ "%")).
  cbn [has_nul]. change ("%" =? zero)%char with false. cbn [orb].
  rewrite has_nul_append, has_nul_lower, has_nul_rstrip, has_nul_lstrip.
  apply orb_false_r.
Qed.

End QueryText.

Lemma search_books_by_pattern (s s' : string) (q : PageQuery) (d : Database) :
  Text.length_between 3 100 s = Text.length_between 3 100 s' ->
  query_lower s = query_lower s' ->
  search_books (Some s) q d = search_books (Some s') q d.
Proof.
  intros Hl Hq.
  unfold search_books, validate_search, required, guard, bind.
  rewrite Hl. destruct (Text.length_between 3 100 s'); [|reflexivity].
  destruct (validate_paging q) as [[pg ps]|e]; [|reflexivity].
  unfold search_books_body. now rewrite Hq.
Qed.

(** X9. A query made of whitespace only (three characters or more, so
    that it is accepted) selects every book: the search answers exactly as
    the list route does for the same paging parameters. *)
Theorem blank_query_lists_everything (s : string) (q : PageQuery)
    (d : Database) :
  Text.all_space s = true ->
  Text.length_between 3 100 s = true ->
  search_books (Some s) q d = get_all_books q d.
Proof.
  intros Hb Hl.
  unfold search_books, validate_search, get_all_books, required, guard, bind.
  rewrite Hl.
  destruct (validate_paging q) as [[pg ps]|e] eqn:E; [|reflexivity].
  apply validate_paging_inv in E as (_ & _ & Hpg & Hps).
  assert (Hq : query_lower s = "%%").
  { unfold query_lower, Text.strip. now rewrite (lstrip_all_space s Hb). }
  assert (Ht : Like.parse (query_lower s) = Some [Like.AnySeq; Like.AnySeq])
    by now rewrite Hq.
  assert (Hall : forall l,
             filter (Sql.search_condition [Like.AnySeq; Like.AnySeq]) l = l).
  { induction l as [|r l IH]; [reflexivity|].
    cbn [filter]. unfold Sql.search_condition at 1.
    cbv beta iota delta [Sql.like Sql.lower option_map].
    rewrite (matches_anyseq [Like.AnySeq]), matches_trailing_anyseq.
    simpl. now rewrite IH. }
  rewrite (search_books_body_eq s pg ps d _ Hpg ltac:(lia) Ht).
  rewrite get_all_books_body_eq by lia.
  now rewrite Hq, Hall.
Qed.

Lemma blank_query_lists_everything_witness :
  (Text.all_space "   " = true /\ Text.length_between 3 100 "   " = true)
  /\ search_books (Some "   ") default_paging dune_db
     = get_all_books default_paging dune_db.
Proof.
  split; [split; reflexivity|].
  exact (blank_query_lists_everything "   " default_paging dune_db
           eq_refl eq_refl).
Defined.

(** X10. The case of the query does not matter as long as the query
    passes the length check both as sent and lowercased: the search then
    answers the same for the query as sent and for the lowercased query. *)
Theorem search_ignores_query_case (s : string) (q : PageQuery)
    (d : Database) :
  Text.length_between 3 100 s = true ->
  Text.length_between 3 100 (Text.lower s) = true ->
  search_books (Some (Text.lower s)) q d = search_books (Some s) q d.
Proof.
  intros H1 H2. apply search_books_by_pattern.
  - now rewrite H1, H2.
  - unfold query_lower. now rewrite strip_lower, lower_idem.
Qed.

Lemma search_ignores_query_case_witness :
  (Text.length_between 3 100 "Dun" = true
   /\ Text.length_between 3 100 (Text.lower "Dun") = true)
  /\ search_books (Some "dun") default_paging dune_db
     = search_books (Some "Dun") default_paging dune_db.
Proof.
  split; [split; reflexivity|].
  exact (search_ignores_query_case "Dun" default_paging dune_db
           eq_refl eq_refl).
Defined.

(** X11. Whitespace around the query does not matter as long as the query
    passes the length check with and without it: the search then answers the
    same for the query as sent and for the stripped query. *)
Theorem search_ignores_surrounding_space (s : string) (q : PageQuery)
    (d : Database) :
  Text.length_between 3 100 s = true ->
  Text.length_between 3 100 (Text.strip s) = true ->
  search_books (Some (Text.strip s)) q d = search_books (Some s) q d.
Proof.
  intros H1 H2. apply search_books_by_pattern.
  - now rewrite H1, H2.
  - unfold query_lower. now rewrite strip_idem.
Qed.

Lemma search_ignores_surrounding_space_witness :
  (Text.length_between 3 100 "  dun " = true
   /\ Text.length_between 3 100 (Text.strip "  dun ") = true)
  /\ search_books (Some "dun") default_paging dune_db
     = search_books (Some "  dun ") default_paging dune_db.
Proof.
  split; [split; reflexivity|].
  exact (search_ignores_surrounding_space "  dun " default_paging dune_db
           eq_refl eq_refl).
Defined.

(** ** The [Book] model as a filter on answers *)

Lemma length_between_spec (lo hi : Z) (s : string) :
  Text.length_between lo hi s = true <-> lo <= Text.len s <= hi.
Proof.
  unfold Text.length_between. rewrite andb_true_iff, !Z.leb_le. tauto.
Qed.

Lemma book_fields_ok_spec (t a : string) (p : option string) :
  book_fields_ok t a p = true <->
  3 <= Text.len t <= 100 /\ 3 <= Text.len a <= 100
  /\ forall s, p = Some s -> 3 <= Text.len s <= 100.
Proof.
  unfold book_fields_ok, optional_length_between.
  rewrite !andb_true_iff, !length_between_spec. destruct p as [s|].
  - rewrite length_between_spec. split.
    + intros [[Ht Ha] Hp]. split; [exact Ht|]. split; [exact Ha|].
      intros s' Hs; injection Hs as <-; exact Hp.
    + intros (Ht & Ha & Hp). split; [split; assumption|].
      exact (Hp s eq_refl).
  - split.
    + intros [[Ht Ha] _]. split; [exact Ht|]. split; [exact Ha|]. discriminate.
    + intros (Ht & Ha & _). split; [split; assumption | reflexivity].
Qed.

(** X12. Every book in an answer of the list route or of the search route
    satisfies the field constraints of the [Book] model: title and author of
    3..100 characters, and a publisher that is null or of 3..100
    characters.  A stored row outside them is never sent to a client. *)
Theorem returned_books_satisfy_model (query : option string) (q : PageQuery)
    (d : Database) (resp : SearchResponse) (b : Book) :
  fst (get_all_books q d) = Ok resp \/ fst (search_books query q d) = Ok resp ->
  In b (results resp) ->
  3 <= Text.len (title b) <= 100 /\ 3 <= Text.len (author b) <= 100
  /\ forall s, publisher b = Some s -> 3 <= Text.len s <= 100.
Proof.
  intros H Hb.
  destruct (read_route_inv query q d resp H) as (pg & ps & rows & _ & _ & Hr).
  apply page_response_inv in Hr as [Hok ->]. simpl in Hb.
  apply in_map_iff in Hb as [r [<- Hr]].
  rewrite forallb_forall in Hok. specialize (Hok r Hr).
  now apply book_fields_ok_spec in Hok.
Qed.

Lemma returned_books_satisfy_model_witness :
  (fst (get_all_books default_paging dune_db)
   = Ok (mkSearchResponse 1 1 10 1 [dune_book 1])
   \/ fst (search_books (Some "dun") default_paging dune_db)
      = Ok (mkSearchResponse 1 1 10 1 [dune_book 1]))
  /\ In (dune_book 1) [dune_book 1]
  /\ 3 <= Text.len (title (dune_book 1)) <= 100.
Proof.
  split; [left; reflexivity|]. split; [now left|].
  destruct (returned_books_satisfy_model None default_paging dune_db
              (mkSearchResponse 1 1 10 1 [dune_book 1]) (dune_book 1)
              (or_introl eq_refl) (or_introl eq_refl)) as [H _].
  exact H.
Defined.

(** X13. A create request is answered 201 only if the title and the author,
    once stripped, have 3..100 characters, and the publisher, when one was
    sent, has 3..100 characters both as sent and once stripped. *)
Theorem created_only_within_model (uuid : string) (f : CreateForm)
    (w : World) (b : Book) :
  fst (add_book uuid f w) = Ok b ->
  exists t a,
    form_title f = Some t /\ form_author f = Some a
    /\ 3 <= Text.len (Text.strip t) <= 100
    /\ 3 <= Text.len (Text.strip a) <= 100
    /\ forall p, form_publisher f = Some p -> p <> "" ->
                 3 <= Text.len p <= 100
                 /\ 3 <= Text.len (Text.strip p) <= 100.
Proof.
  intros H.
  destruct (add_book_ok uuid f w b H)
    as (t & a & c & fs & Ht & Ha & Hp & _ & Heq & _).
  rewrite Heq in H. unfold store_book in H. simpl in H.
  apply make_Book_inv in H as [_ Hok].
  apply book_fields_ok_spec in Hok as (Hlt & Hla & Hlp).
  apply form_value_some in Ht as [Ht _]. apply form_value_some in Ha as [Ha _].
  exists t, a. do 4 (split; [assumption|]).
  intros p Hfp Hne. rewrite Hfp in Hp, Hlp.
  destruct p as [|cp p]; [contradiction|]. simpl in Hp, Hlp.
  apply length_between_spec in Hp. split; [exact Hp|].
  now apply Hlp.
Qed.

Lemma created_only_within_model_witness :
  fst (add_book "7b1c" dune_form empty_world) = Ok (dune_book 1)
  /\ exists t a,
      form_title dune_form = Some t /\ form_author dune_form = Some a
      /\ 3 <= Text.len (Text.strip t) <= 100
      /\ 3 <= Text.len (Text.strip a) <= 100.
Proof.
  split; [reflexivity|].
  destruct (created_only_within_model "7b1c" dune_form empty_world
              (dune_book 1) eq_refl) as (t & a & Ht & Ha & H1 & H2 & _).
  exists t, a. repeat split; assumption || apply H1 || apply H2.
Defined.

Lemma page_slice_valid (page page_size : Z) (rows : list Row) :
  forallb row_fields_ok rows = true ->
  forallb row_fields_ok (page_slice page page_size rows) = true.
Proof.
  rewrite !forallb_forall. intros H r Hr.
  apply H. now apply page_slice_incl in Hr.
Qed.

(** X14. When every stored row satisfies the field constraints of the
    [Book] model, the transaction of the connection is not aborted, the
    offset [(page - 1) * page_size] fits a [bigint] and the query holds no
    NUL, the read routes answer: a list request with valid paging
    parameters, and a search with such parameters and a query of 3..100
    characters, get a 200 answer, and the state is left as it was. *)
Theorem read_routes_answer_on_valid_rows (s : string) (q : PageQuery)
    (d : Database) (page page_size : Z) :
  forallb row_fields_ok (books d) = true ->
  validate_paging q = Ok (page, page_size) ->
  Text.length_between 3 100 s = true ->
  failed d = false ->
  (page - 1) * page_size <= Sql.INT8_MAX ->
  Text.has_nul s = false ->
  (exists resp, get_all_books q d = (Ok resp, d))
  /\ (exists resp, search_books (Some s) q d = (Ok resp, d)).
Proof.
  intros Hok Hv Hs Hf Ho Hn. split.
  - rewrite (get_all_books_eq q d page page_size Hv).
    rewrite (read_outcome_usable _ _ _ d Hf Ho).
    rewrite page_response_valid by now apply page_slice_valid.
    eexists. reflexivity.
  - destruct (search_books_eq (Some s) q d s page page_size) as [toks [_ ->]].
    { apply validate_search_inv. auto. }
    rewrite has_nul_query_lower, Hn.
    rewrite (read_outcome_usable _ _ _ d Hf Ho).
    rewrite page_response_valid; [eexists; reflexivity|].
    apply page_slice_valid. rewrite forallb_forall in *.
    intros r Hr. apply filter_In in Hr as [Hr _]. now apply Hok.
Qed.

Lemma read_routes_answer_on_valid_rows_witness :
  (forallb row_fields_ok (books dune_db) = true
   /\ validate_paging default_paging = Ok (1, 10)
   /\ Text.length_between 3 100 "dun" = true
   /\ failed dune_db = false
   /\ (1 - 1) * 10 <= Sql.INT8_MAX
   /\ Text.has_nul "dun" = false)
  /\ (exists resp, get_all_books default_paging dune_db = (Ok resp, dune_db))
  /\ (exists resp,
        search_books (Some "dun") default_paging dune_db = (Ok resp, dune_db)).
Proof.
  split; [repeat split; discriminate|].
  exact (read_routes_answer_on_valid_rows "dun" default_paging dune_db 1 10
           eq_refl eq_refl eq_refl eq_refl ltac:(discriminate) eq_refl).
Defined.

Lemma read_outcome_not_422 (page page_size : Z) (rows : list Row)
    (d : Database) :
  fst (read_outcome page page_size rows d) <> Err Unprocessable422.
Proof.
  unfold read_outcome, page_response.
  destruct (failed d); [discriminate|].
  destruct (Sql.INT8_MAX <? _); [discriminate|].
  destruct (books_of_rows _); discriminate.
Qed.

(** X15. A list request is answered 422 exactly when [page] is below 1 or
    [page_size] is outside 1..50, an absent parameter counting as 1 and 10;
    a search whose query has 3..100 characters likewise. *)
Theorem paging_rejected_iff (s : string) (q : PageQuery) (d : Database) :
  Text.length_between 3 100 s = true ->
  let page := with_default 1 (q_page q) in
  let page_size := with_default 10 (q_page_size q) in
  (fst (get_all_books q d) = Err Unprocessable422 <->
   page < 1 \/ page_size < 1 \/ 50 < page_size)
  /\ (fst (search_books (Some s) q d) = Err Unprocessable422 <->
      page < 1 \/ page_size < 1 \/ 50 < page_size).
Proof.
  intros Hs page page_size.
  destruct (validate_paging q) as [[pg ps]|e] eqn:E.
  - pose proof E as E'. apply validate_paging_inv in E' as (-> & -> & Hpg & Hps).
    fold page in Hpg. fold page_size in Hps.
    destruct (search_books_eq (Some s) q d s page page_size) as [toks [_ ->]].
    { apply validate_search_inv. auto. }
    rewrite (get_all_books_eq q d page page_size E).
    split; (split; [intros H; exfalso | lia]).
    + now apply read_outcome_not_422 in H.
    + destruct (Text.has_nul (query_lower s)); [discriminate|].
      now apply read_outcome_not_422 in H.
  - pose proof (validate_paging_error q e E) as ->.
    assert (Hbad : page < 1 \/ page_size < 1 \/ 50 < page_size).
    { destruct (Z_lt_le_dec page 1) as [|H1]; [auto|].
      destruct (Z_lt_le_dec page_size 1) as [|H2]; [auto|].
      destruct (Z_lt_le_dec 50 page_size) as [|H3]; [auto|].
      assert (validate_paging q = Ok (page, page_size))
        by (apply validate_paging_inv; auto).
      congruence. }
    unfold get_all_books, search_books, validate_search, required, guard, bind.
    rewrite Hs, E. split; (split; [intros _; exact Hbad | reflexivity]).
Qed.

Lemma paging_rejected_iff_witness :
  Text.length_between 3 100 "dun" = true
  /\ fst (get_all_books (mkPageQuery (Some 1) (Some 51)) dune_db)
     = Err Unprocessable422.
Proof.
  split; [reflexivity|].
  destruct (paging_rejected_iff "dun" (mkPageQuery (Some 1) (Some 51))
              dune_db eq_refl) as [[_ H] _].
  apply H. simpl. lia.
Defined.

(** ** Create, then read *)

Lemma order_by_id_fixed (l : list Row) :
  StronglySorted id_lt l -> Sql.order_by_id l = l.
Proof.
  induction 1 as [|x l Hl IH Hx]; simpl; [reflexivity|].
  rewrite IH. destruct l as [|y l]; [reflexivity|]. simpl.
  inversion Hx as [|? ? Hxy _]; subst. unfold id_lt in Hxy.
  replace (r_id x <=? r_id y) with true by (symmetry; apply Z.leb_le; lia).
  reflexivity.
Qed.

(** What a successful create request leaves behind. *)
Lemma add_book_created (uuid : string) (f : CreateForm) (w w' : World)
    (b : Book) :
  add_book uuid f w = (Ok b, w') ->
  id b = next_id (database w)
  /\ books (database w')
     = (books (database w)
        ++ [mkRow (id b) (title b) (author b) (publisher b)
                  (cover_image_path b)])%list.
Proof.
  intros H.
  destruct (add_book_ok uuid f w b)
    as (t & a & c & fs & _ & _ & _ & _ & Heq & _); [now rewrite H|].
  rewrite Heq in H. unfold store_book in H. injection H as Hb <-.
  apply make_Book_inv in Hb as [-> _]. split; reflexivity.
Qed.

(** X16. Create, then list: after a successful create request on a table
    whose ids are fresh, the table counts one book more, and the last page
    of the list route ends with the book that was just created. *)
Theorem created_book_closes_the_listing (uuid : string) (f : CreateForm)
    (w w' : World) (b : Book) (page_size : Z) (resp : SearchResponse) :
  ids_fresh (database w) ->
  add_book uuid f w = (Ok b, w') ->
  1 <= page_size <= 50 ->
  fst (get_all_books
    (mkPageQuery
       (Some (page_count (Sql.count (books (database w)) + 1) page_size))
       (Some page_size))
    (database w'))
  = Ok resp ->
  total resp = Sql.count (books (database w)) + 1
  /\ exists before, results resp = (before ++ [b])%list.
Proof.
  intros [Hsorted Hbelow] Hadd Hps Hget.
  destruct (add_book_created uuid f w w' b Hadd) as [Hid Hrows].
  set (r := mkRow (id b) (title b) (author b) (publisher b)
                  (cover_image_path b)) in *.
  set (n := Sql.count (books (database w))) in *.
  assert (Hn : 0 <= n) by (unfold n, Sql.count; lia).
  destruct (page_count_ceiling (n + 1) page_size ltac:(lia) ltac:(lia))
    as [H1 H2].
  set (p := page_count (n + 1) page_size) in *.
  assert (Hp : 1 <= p) by nia.
  destruct (get_all_books_ok _ (database w') resp Hget)
    as (pg & ps & Hv & Hr).
  apply validate_paging_inv in Hv as (-> & -> & _). simpl in Hr.
  apply page_response_inv in Hr as [_ ->]. simpl.
  assert (Hcount : Sql.count (books (database w')) = n + 1).
  { rewrite Hrows. unfold Sql.count, n. rewrite length_app. simpl.
    unfold Sql.count. lia. }
  split; [exact Hcount|].
  assert (Hs' : StronglySorted id_lt (books (database w'))).
  { rewrite Hrows. apply sorted_snoc; [exact Hsorted|].
    subst r. simpl. rewrite Hid. exact Hbelow. }
  unfold page_slice. rewrite (order_by_id_fixed _ Hs'), Hrows.
  set (k := Z.to_nat ((p - 1) * page_size)).
  assert (Hk : (k <= List.length (books (database w)))%nat)
    by (unfold k; unfold n, Sql.count in *; nia).
  rewrite skipn_app.
  replace (k - List.length (books (database w)))%nat with 0%nat by lia.
  simpl skipn. rewrite firstn_all2.
  - rewrite map_app. simpl. destruct b; subst r; simpl.
    eexists. reflexivity.
  - rewrite length_app, length_skipn. simpl.
    unfold k; unfold n, Sql.count in *. nia.
Qed.

Lemma created_book_closes_the_listing_witness :
  (ids_fresh (database empty_world)
   /\ add_book "7b1c" dune_form empty_world
      = (Ok (dune_book 1), mkWorld dune_db [] (can_open empty_world))
   /\ 1 <= 10 <= 50
   /\ fst (get_all_books (mkPageQuery (Some 1) (Some 10)) dune_db)
      = Ok (mkSearchResponse 1 1 10 1 [dune_book 1]))
  /\ total (mkSearchResponse 1 1 10 1 [dune_book 1]) = 0 + 1.
Proof.
  assert (H : ids_fresh (database empty_world)) by (split; constructor).
  split; [split; [exact H | split; [reflexivity | split; [lia|reflexivity]]]|].
  destruct (created_book_closes_the_listing "7b1c" dune_form empty_world
              (mkWorld dune_db [] (can_open empty_world)) (dune_book 1) 10
              (mkSearchResponse 1 1 10 1 [dune_book 1])
              H eq_refl ltac:(lia) eq_refl) as [Ht _].
  exact Ht.
Defined.

(** X17. Create, then search: for a query without [LIKE] metacharacters
    whose trimmed, lowercased form occurs in the lowercased title or author
    of a book just created, the search counts exactly one book more after
    the create request than before it. *)
Theorem created_book_is_found (uuid : string) (f : CreateForm)
    (w w' : World) (b : Book) (s : string) (q : PageQuery)
    (before after : SearchResponse) :
  add_book uuid f w = (Ok b, w') ->
  Like.has_meta (Text.lower (Text.strip s)) = false ->
  Text.substring_of (Text.lower (Text.strip s)) (Text.lower (title b))
  \/ Text.substring_of (Text.lower (Text.strip s)) (Text.lower (author b)) ->
  fst (search_books (Some s) q (database w)) = Ok before ->
  fst (search_books (Some s) q (database w')) = Ok after ->
  total after = total before + 1.
Proof.
  intros Hadd Hm Hsub Hb Ha.
  destruct (add_book_created uuid f w w' b Hadd) as [_ Hrows].
  destruct (search_books_accepted s q (database w) before Hb)
    as (pg & ps & toks & _ & Ht & Hrb).
  destruct (search_books_accepted s q (database w') after Ha)
    as (pg' & ps' & toks' & _ & Ht' & Hra).
  rewrite Ht in Ht'. injection Ht' as <-.
  unfold query_lower in Ht. rewrite (parse_wrapped_plain _ Hm) in Ht.
  injection Ht as <-.
  apply page_response_inv in Hrb as [_ ->].
  apply page_response_inv in Hra as [_ ->]. simpl.
  rewrite Hrows, filter_app. cbn [filter].
  rewrite search_condition_plain.
  assert (Hr : spec_search_match (Text.strip s)
                 (mkRow (id b) (title b) (author b) (publisher b)
                        (cover_image_path b)) = true).
  { unfold spec_search_match. simpl.
    destruct Hsub as [H | H]; apply contains_spec in H; rewrite H;
      [reflexivity | rewrite orb_true_r; reflexivity]. }
  rewrite Hr. unfold Sql.count. rewrite length_app. simpl. lia.
Qed.

Lemma created_book_is_found_witness :
  (add_book "7b1c" dune_form empty_world
   = (Ok (dune_book 1), mkWorld dune_db [] (can_open empty_world))
   /\ Like.has_meta (Text.lower (Text.strip "DUN")) = false
   /\ Text.contains (Text.lower (Text.strip "DUN"))
        (Text.lower (title (dune_book 1))) = true
   /\ fst (search_books (Some "DUN") default_paging (database empty_world))
      = Ok (mkSearchResponse 0 1 10 0 [])
   /\ fst (search_books (Some "DUN") default_paging dune_db)
      = Ok (mkSearchResponse 1 1 10 1 [dune_book 1]))
  /\ total (mkSearchResponse 1 1 10 1 [dune_book 1])
     = total (mkSearchResponse 0 1 10 0 []) + 1.
Proof.
  split; [repeat split|].
  apply (created_book_is_found "7b1c" dune_form empty_world
           (mkWorld dune_db [] (can_open empty_world)) (dune_book 1) "DUN"
           default_paging (mkSearchResponse 0 1 10 0 [])
           (mkSearchResponse 1 1 10 1 [dune_book 1]) eq_refl eq_refl).
  - left. apply contains_spec. reflexivity.
  - reflexivity.
  - reflexivity.
Defined.

(** ** Runs of create requests *)

Lemma add_book_keeps_ids_consecutive (uuid : string) (f : CreateForm)
    (w : World) :
  ids_consecutive (database w) ->
  ids_consecutive (database (snd (add_book uuid f w))).
Proof.
  intros [Hids Hnext].
  destruct (add_book_cases uuid f w)
    as [[-> _] | [(fs & -> & _)
                 | (t & a & c & fs & _ & _ & _ & _ & -> & _)]];
    [now split | now split |].
  unfold store_book, ids_consecutive. simpl.
  rewrite length_app, map_app. simpl.
  replace (List.length (books (database w)) + 1)%nat
    with (S (List.length (books (database w)))) by lia.
  rewrite seq_S, map_app, Hids, Hnext. simpl. split; [|lia].
  do 2 f_equal. lia.
Qed.

(** X18. From start-up on, whatever create requests are served and
    however each one ends, the stored ids are 1, 2, ..., n in storage order
    and the next id is n + 1: no id is ever reused or skipped. *)
Theorem served_ids_are_consecutive (requests : list (string * CreateForm))
    (fs : list (string * list byte)) (opens : string -> bool) :
  ids_consecutive (database (serve requests (startup fs opens))).
Proof.
  assert (H : ids_consecutive (database (startup fs opens)))
    by (split; reflexivity).
  revert H. generalize (startup fs opens).
  induction requests as [|[uuid f] rest IH]; intros w H; [exact H|].
  simpl. apply IH. now apply add_book_keeps_ids_consecutive.
Qed.

(** X19. The cover image is always stored as [uploads/<uuid>_<file name>]:
    since the uuid comes first, a file name that starts with a slash cannot
    make [os.path.join] drop the upload directory. *)
Theorem cover_path_under_uploads (uuid : string) (f : CreateForm)
    (w : World) (b : Book) (p : string) :
  Text.prefix_of "/" uuid = false ->
  fst (add_book uuid f w) = Ok b ->
  cover_image_path b = Some p ->
  exists up name,
    form_cover_image f = Some up /\ filename up = Some name
    /\ p = "uploads/" ++ uuid ++ "_" ++ name.
Proof.
  intros Hu Hb Hp.
  destruct (add_book_ok uuid f w b Hb)
    as (t & a & c & fs & _ & _ & _ & _ & Heq & Hc).
  rewrite Heq in Hb. unfold store_book in Hb. simpl in Hb.
  apply make_Book_inv in Hb as [-> _]. simpl in Hp. subst c.
  destruct Hc as [(_ & Hn & _) | (name & ct & Hs & Hp & _)]; [discriminate|].
  injection Hp as ->.
  unfold cover_supplied in Hs.
  destruct (form_cover_image f) as [up|]; [|discriminate].
  destruct (filename up) as [name'|] eqn:Hf; [|discriminate].
  destruct (Text.truthy name'); [|discriminate].
  injection Hs as <- <-. exists up, name'.
  split; [reflexivity|]. split; [exact Hf|].
  destruct uuid as [|c u]; [reflexivity|].
  destruct c as [[] [] [] [] [] [] [] []];
    solve [discriminate Hu | reflexivity].
Qed.

Lemma cover_path_under_uploads_witness :
  let f := mkCreateForm (Some "Dune") (Some "Frank Herbert") None
             (Some (mkUploadFile (Some "/etc/cover.png") [x89; x50])) in
  let b := mkBook 1 "Dune" "Frank Herbert" None
             (Some "uploads/7b1c_/etc/cover.png") in
  (Text.prefix_of "/" "7b1c" = false
   /\ fst (add_book "7b1c" f empty_world) = Ok b
   /\ cover_image_path b = Some "uploads/7b1c_/etc/cover.png")
  /\ exists up name,
      form_cover_image f = Some up /\ filename up = Some name
      /\ "uploads/7b1c_/etc/cover.png" = "uploads/" ++ "7b1c" ++ "_" ++ name.
Proof.
  intros f b. split; [repeat split|].
  exact (cover_path_under_uploads "7b1c" f empty_world b
           "uploads/7b1c_/etc/cover.png" eq_refl eq_refl eq_refl).
Defined.




